(** * Alt-text inference for Android layout trees

    A shallow embedding of [src/data/enhanced_rule_engine.py] (the rule
    engine) and [src/data/complete_accessibility_system.py] (the layout
    parser and report builder), with the properties of the specification
    stated over it.

    Python values are modelled as follows.
    - [str] is a sequence of Unicode code points: [list N].
    - A [dict] loaded from JSON keeps insertion order, which the engine
      observes when it iterates; it is an association list with distinct
      keys ([distinct_keys]).
    - An exception is a value of [exn]; a call that may raise returns a
      [result].
    - [str.lower] depends on the Unicode tables of the Python runtime; the
      engine is parameterised over it, and [ascii_lower] is its restriction
      to strings whose only cased characters are A-Z.
    - [xml.etree.ElementTree.fromstring] is a parameter of the layout
      parser as well. *)

From Stdlib Require Import List NArith ZArith QArith Bool String Ascii Lia.
From Stdlib Require Import Sorted Permutation.
Import ListNotations.
Close Scope Q_scope.

(* ================================================================= *)
(** ** Python strings *)

Module Py.

Definition char := N.
Definition str := list char.

(** The code points of a UTF-8 byte sequence (well-formed input). *)
Fixpoint decode_utf8 (bytes : list N) : str :=
  match bytes with
  | [] => []
  | b :: rest =>
      if (b <? 128)%N then b :: decode_utf8 rest
      else if (b <? 224)%N then
        match rest with
        | b1 :: rest' =>
            ((b - 192) * 64 + (b1 - 128))%N :: decode_utf8 rest'
        | _ => []
        end
      else if (b <? 240)%N then
        match rest with
        | b1 :: b2 :: rest' =>
            ((b - 224) * 4096 + (b1 - 128) * 64 + (b2 - 128))%N
              :: decode_utf8 rest'
        | _ => []
        end
      else
        match rest with
        | b1 :: b2 :: b3 :: rest' =>
            ((b - 240) * 262144 + (b1 - 128) * 4096
             + (b2 - 128) * 64 + (b3 - 128))%N
              :: decode_utf8 rest'
        | _ => []
        end
  end.

(** A string literal of the source as a Python string. *)
Definition lit (s : string) : str :=
  decode_utf8 (List.map N_of_ascii (list_ascii_of_string s)).

Fixpoint eqb (a b : str) : bool :=
  match a, b with
  | [], [] => true
  | x :: a', y :: b' => N.eqb x y && eqb a' b'
  | _, _ => false
  end.

(** [s.startswith(p)] *)
Fixpoint startswith (p s : str) : bool :=
  match p, s with
  | [], _ => true
  | x :: p', y :: s' => N.eqb x y && startswith p' s'
  | _ :: _, [] => false
  end.

(** [sub in s] *)
Fixpoint contains (sub s : str) : bool :=
  startswith sub s ||
  match s with
  | [] => false
  | _ :: s' => contains sub s'
  end.

(** [s[n:]] for a non-negative [n] *)
Definition slice_from (n : nat) (s : str) : str := skipn n s.

(** [bool(s)]: a string is truthy when it is not empty. *)
Definition truthy (s : str) : bool :=
  match s with [] => false | _ :: _ => true end.

(** [c.isspace()]: the code points Python treats as whitespace. *)
Definition isspace (c : char) : bool :=
  (((9 <=? c) && (c <=? 13)) || ((28 <=? c) && (c <=? 32))
   || (c =? 133) || (c =? 160) || (c =? 5760)
   || ((8192 <=? c) && (c <=? 8202))
   || (c =? 8232) || (c =? 8233) || (c =? 8239) || (c =? 8287)
   || (c =? 12288))%N.

Fixpoint lstrip (s : str) : str :=
  match s with
  | c :: s' => if isspace c then lstrip s' else s
  | [] => []
  end.

(** [s.strip()] *)
Definition strip (s : str) : str := rev (lstrip (rev (lstrip s))).

(** [s.split()]: the maximal runs of non-whitespace characters.  [cur]
    holds the run being read, reversed. *)
Fixpoint split_ws_aux (cur : str) (s : str) : list str :=
  match s with
  | [] => match cur with [] => [] | _ => [rev cur] end
  | c :: s' =>
      if isspace c
      then match cur with
           | [] => split_ws_aux [] s'
           | _ => rev cur :: split_ws_aux [] s'
           end
      else split_ws_aux (c :: cur) s'
  end.

Definition split_ws (s : str) : list str := split_ws_aux [] s.

(** [s.split(sep)] for a one-character separator: never the empty list. *)
Fixpoint split_on_aux (sep : char) (cur : str) (s : str) : list str :=
  match s with
  | [] => [rev cur]
  | c :: s' =>
      if N.eqb c sep
      then rev cur :: split_on_aux sep [] s'
      else split_on_aux sep (c :: cur) s'
  end.

Definition split_on (sep : char) (s : str) : list str :=
  split_on_aux sep [] s.

(** [sep.join(parts)] *)
Fixpoint join (sep : str) (parts : list str) : str :=
  match parts with
  | [] => []
  | [p] => p
  | p :: rest => p ++ sep ++ join sep rest
  end.

(** The order of [<] on strings: lexicographic on code points. *)
Fixpoint compare (a b : str) : comparison :=
  match a, b with
  | [], [] => Eq
  | [], _ :: _ => Lt
  | _ :: _, [] => Gt
  | x :: a', y :: b' =>
      match N.compare x y with
      | Eq => compare a' b'
      | o => o
      end
  end.

(** The order of [<] on lists of strings. *)
Fixpoint compare_list (a b : list str) : comparison :=
  match a, b with
  | [], [] => Eq
  | [], _ :: _ => Lt
  | _ :: _, [] => Gt
  | x :: a', y :: b' =>
      match compare x y with
      | Eq => compare_list a' b'
      | o => o
      end
  end.

(** [str.lower] on strings whose only cased characters are A-Z. *)
Definition ascii_lower (s : str) : str :=
  List.map (fun c => if (65 <=? c) && (c <=? 90) then c + 32 else c)%N s.

(** Exceptions the modelled code can raise. *)
Inductive exn : Type :=
| IndexError
| KeyError
| ParseError
| OSError
| ZeroDivisionError
| UnicodeEncodeError.

Inductive result (A : Type) : Type :=
| Ok (a : A)
| Raise (e : exn).

Arguments Ok {A} a.
Arguments Raise {A} e.

Definition bind {A B} (m : result A) (k : A -> result B) : result B :=
  match m with
  | Ok a => k a
  | Raise e => Raise e
  end.

(** [a / b] on numbers: [ZeroDivisionError] for a zero divisor.  The
    quotient is kept exact here, where Python rounds it to a float. *)
Definition truediv (a b : Q) : result Q :=
  if Qeq_bool b 0 then Raise ZeroDivisionError else Ok (a / b)%Q.

(** [l[0]] *)
Definition first {A} (l : list A) : result A :=
  match l with
  | x :: _ => Ok x
  | [] => Raise IndexError
  end.

(** [s.split(sep)[-1]]: [split_on] never returns the empty list, so the
    index is always in range. *)
Definition split_last (sep : char) (s : str) : str :=
  List.last (split_on sep s) [].

End Py.

Notation "x <- m ;; k" := (Py.bind m (fun x => k))
  (at level 61, m at next level, right associativity).

(* ================================================================= *)
(** ** Dictionaries in insertion order *)

Module Dict.

Definition t (V : Type) := list (Py.str * V).

Definition keys {V} (d : t V) : list Py.str := List.map fst d.

Fixpoint find {V} (k : Py.str) (d : t V) : option V :=
  match d with
  | [] => None
  | (k', v) :: d' => if Py.eqb k k' then Some v else find k d'
  end.

(** [k in d] *)
Definition mem {V} (k : Py.str) (d : t V) : bool :=
  match find k d with Some _ => true | None => false end.

(** [d[k]] *)
Definition get {V} (k : Py.str) (d : t V) : Py.result V :=
  match find k d with
  | Some v => Py.Ok v
  | None => Py.Raise Py.KeyError
  end.

(** The keys of a dictionary are pairwise distinct. *)
Fixpoint distinct_keys {V} (d : t V) : bool :=
  match d with
  | [] => true
  | (k, _) :: d' => negb (mem k d') && distinct_keys d'
  end.

End Dict.

(* ================================================================= *)
(** ** The rule engine ([enhanced_rule_engine.py]) *)

Notation "# s" := (Py.lit s) (at level 1, format "# s").

(** The [UIElement] data class. *)
Record UIElement : Type := mkUIElement {
  resource_id : Py.str;
  class_name : Py.str;
  text : Py.str;
  content_description : Py.str;
  bounds : Py.str;
  clickable : bool;
  focusable : bool;
  enabled : bool;
  parent_context : Py.str;
  sibling_context : Py.str;
  app_context : Py.str
}.

(** The fields of an [EnhancedAccessibilityRuleEngine] instance. *)
Record Engine : Type := mkEngine {
  rules_dir : Py.str;
  resource_rules : Dict.t (list Py.str);
  class_rules : Dict.t (list Py.str);
  text_pattern_rules : Dict.t (list Py.str);
  app_specific_rules : Dict.t (list Py.str);
  action_rules : Dict.t Z;
  context_rules : Dict.t (list Py.str)
}.

(** The tuples [(len(pattern), pattern, alternatives)] that
    [_match_resource_id] sorts, under Python's tuple order. *)
Definition match_tuple : Type := (nat * Py.str * list Py.str)%type.

Definition tuple_compare (a b : match_tuple) : comparison :=
  let '(n1, p1, l1) := a in
  let '(n2, p2, l2) := b in
  match Nat.compare n1 n2 with
  | Eq => match Py.compare p1 p2 with
          | Eq => Py.compare_list l1 l2
          | o => o
          end
  | o => o
  end.

(** [list.sort(reverse=True)]: a stable sort into descending order. *)
Fixpoint insert_desc (x : match_tuple) (l : list match_tuple)
  : list match_tuple :=
  match l with
  | [] => [x]
  | y :: l' =>
      match tuple_compare x y with
      | Lt => y :: insert_desc x l'
      | _ => x :: l
      end
  end.

Fixpoint sort_reverse (l : list match_tuple) : list match_tuple :=
  match l with
  | [] => []
  | x :: l' => insert_desc x (sort_reverse l')
  end.

(** [if alt_text: return alt_text], followed by the rest of the body. *)
Definition return_if_truthy (alt_text : option Py.str)
    (rest : Py.result Py.str) : Py.result Py.str :=
  match alt_text with
  | Some s => if Py.truthy s then Py.Ok s else rest
  | None => rest
  end.

Definition opt_truthy (alt_text : option Py.str) : bool :=
  match alt_text with
  | Some s => Py.truthy s
  | None => false
  end.

Section RuleEngine.

(** [str.lower] of the Python runtime. *)
Variable lower : Py.str -> Py.str.

Variable self : Engine.

(** The loop of [_match_resource_id] that collects the matching
    patterns. *)
Fixpoint matching_patterns (resource_lower : Py.str)
    (items : Dict.t (list Py.str)) : list match_tuple :=
  match items with
  | [] => []
  | (pattern, alternatives) :: rest =>
      if Py.contains (lower pattern) resource_lower
      then (List.length pattern, pattern, alternatives)
             :: matching_patterns resource_lower rest
      else matching_patterns resource_lower rest
  end.

Definition _match_resource_id (resource_id : Py.str)
  : Py.result (option Py.str) :=
  if Dict.mem resource_id (resource_rules self) then
    alternatives <- Dict.get resource_id (resource_rules self) ;;
    c <- Py.first alternatives ;;
    Py.Ok (Some c)
  else
    let resource_lower := lower resource_id in
    let matching := matching_patterns resource_lower (resource_rules self) in
    match matching with
    | _ :: _ =>
        m <- Py.first (sort_reverse matching) ;;
        c <- Py.first (snd m) ;;
        Py.Ok (Some c)
    | [] => Py.Ok None
    end.

(** The loop of [_match_app_context]: the first key contained in the
    application context decides. *)
Fixpoint app_context_loop (app_context : Py.str)
    (items : Dict.t (list Py.str)) : option Py.str :=
  match items with
  | [] => None
  | (app_name, rules) :: rest =>
      if Py.contains app_name app_context
      then match rules with
           | r :: _ => Some r
           | [] => None
           end
      else app_context_loop app_context rest
  end.

Definition _match_app_context (element : UIElement) : option Py.str :=
  if negb (Py.truthy (app_context element)) then None
  else app_context_loop (app_context element) (app_specific_rules self).

(** [for pattern in patterns: if pattern.lower() in hay: return pattern] *)
Fixpoint pattern_loop (hay : Py.str) (patterns : list Py.str)
  : option Py.str :=
  match patterns with
  | [] => None
  | pattern :: rest =>
      if Py.contains (lower pattern) hay then Some pattern
      else pattern_loop hay rest
  end.

(** The loop over the categories of [text_pattern_rules] around
    [pattern_loop]. *)
Fixpoint category_loop (hay : Py.str) (items : Dict.t (list Py.str))
  : option Py.str :=
  match items with
  | [] => None
  | (_, patterns) :: rest =>
      match pattern_loop hay patterns with
      | Some pattern => Some pattern
      | None => category_loop hay rest
      end
  end.

(** [any(word in pattern.lower() for pattern in patterns)] *)
Definition any_pattern_with (word : Py.str) (patterns : list Py.str) : bool :=
  existsb (fun pattern => Py.contains word (lower pattern)) patterns.

(** The loop over the categories that returns [patterns[0]] of the first
    category with a pattern containing [word]; [None] when the loop ends
    without returning. *)
Fixpoint action_category_loop (word : Py.str)
    (items : Dict.t (list Py.str)) : Py.result (option Py.str) :=
  match items with
  | [] => Py.Ok None
  | (_, patterns) :: rest =>
      if any_pattern_with word patterns
      then (p <- Py.first patterns ;; Py.Ok (Some p))
      else action_category_loop word rest
  end.

(** [for word in words: if word in self.action_rules: ...] *)
Fixpoint text_word_loop (words : list Py.str)
  : Py.result (option Py.str) :=
  match words with
  | [] => Py.Ok None
  | word :: rest =>
      if Dict.mem word (action_rules self) then
        r <- action_category_loop word (text_pattern_rules self) ;;
        match r with
        | Some p => Py.Ok (Some p)
        | None => text_word_loop rest
        end
      else text_word_loop rest
  end.

Definition _match_text_pattern (text : Py.str)
  : Py.result (option Py.str) :=
  if negb (Py.truthy text) then Py.Ok None
  else
    let text_lower := lower text in
    match category_loop text_lower (text_pattern_rules self) with
    | Some pattern => Py.Ok (Some pattern)
    | None => text_word_loop (Py.split_ws text_lower)
    end.

(** The partial-match loop of [_match_class_name]. *)
Fixpoint class_partial_loop (class_lower : Py.str)
    (items : Dict.t (list Py.str)) : Py.result (option Py.str) :=
  match items with
  | [] => Py.Ok None
  | (pattern, alternatives) :: rest =>
      if Py.contains (lower pattern) class_lower
      then (c <- Py.first alternatives ;; Py.Ok (Some c))
      else class_partial_loop class_lower rest
  end.

Definition _match_class_name (class_name : Py.str)
  : Py.result (option Py.str) :=
  if Dict.mem class_name (class_rules self) then
    alternatives <- Dict.get class_name (class_rules self) ;;
    c <- Py.first alternatives ;;
    Py.Ok (Some c)
  else
    let simple_name := Py.split_last 46%N class_name in
    if Dict.mem simple_name (class_rules self) then
      alternatives <- Dict.get simple_name (class_rules self) ;;
      c <- Py.first alternatives ;;
      Py.Ok (Some c)
    else
      class_partial_loop (lower class_name) (class_rules self).

(** [for word, count in self.action_rules.items(): if word in context: ...] *)
Fixpoint context_word_loop (context : Py.str) (items : Dict.t Z)
  : Py.result (option Py.str) :=
  match items with
  | [] => Py.Ok None
  | (word, _) :: rest =>
      if Py.contains word context then
        r <- action_category_loop word (text_pattern_rules self) ;;
        match r with
        | Some p => Py.Ok (Some p)
        | None => context_word_loop context rest
        end
      else context_word_loop context rest
  end.

Definition _infer_from_context (element : UIElement)
  : Py.result (option Py.str) :=
  let context :=
    lower (parent_context element ++ #" " ++ sibling_context element) in
  match category_loop context (text_pattern_rules self) with
  | Some pattern => Py.Ok (Some pattern)
  | None => context_word_loop context (action_rules self)
  end.

Definition _get_default_alt_text (element : UIElement) : Py.str :=
  let class_name := lower (class_name element) in
  if Py.contains #"button" class_name then #"버튼"
  else if Py.contains #"image" class_name then #"이미지"
  else if Py.contains #"edittext" class_name then #"입력 필드"
  else if Py.contains #"textview" class_name then #"텍스트"
  else if Py.contains #"checkbox" class_name then #"체크박스"
  else if Py.contains #"radio" class_name then #"라디오 버튼"
  else if Py.contains #"switch" class_name then #"스위치"
  else if Py.contains #"seekbar" class_name then #"슬라이더"
  else #"UI 요소".

(** Steps 2 to 7 of [generate_alt_text], everything below the test of
    [content_description]. *)
Definition generate_from_rules (element : UIElement) : Py.result Py.str :=
  alt2 <- (if Py.truthy (resource_id element)
           then _match_resource_id (resource_id element)
           else Py.Ok None) ;;
  return_if_truthy alt2 (
  let alt3 := if Py.truthy (app_context element)
              then _match_app_context element
              else None in
  return_if_truthy alt3 (
  alt4 <- (if Py.truthy (text element)
           then _match_text_pattern (text element)
           else Py.Ok None) ;;
  return_if_truthy alt4 (
  alt5 <- (if Py.truthy (class_name element)
           then _match_class_name (class_name element)
           else Py.Ok None) ;;
  return_if_truthy alt5 (
  alt6 <- _infer_from_context element ;;
  return_if_truthy alt6 (
  Py.Ok (_get_default_alt_text element)))))).

Definition generate_alt_text (element : UIElement) : Py.result Py.str :=
  if Py.truthy (content_description element)
     && Py.truthy (Py.strip (content_description element))
  then Py.Ok (content_description element)
  else generate_from_rules element.

(** The loop of [get_alternatives] over [app_specific_rules]. *)
Fixpoint app_alternatives (app_context : Py.str)
    (items : Dict.t (list Py.str)) : list Py.str :=
  match items with
  | [] => []
  | (app_name, rules) :: rest =>
      if Py.contains app_name app_context
      then rules ++ app_alternatives app_context rest
      else app_alternatives app_context rest
  end.

(** [list(dict.fromkeys(l))]: each value once, at its first position.
    [seen] holds the keys inserted so far, last first. *)
Fixpoint fromkeys_aux (seen : list Py.str) (l : list Py.str)
  : list Py.str :=
  match l with
  | [] => rev seen
  | x :: l' =>
      if existsb (Py.eqb x) seen then fromkeys_aux seen l'
      else fromkeys_aux (x :: seen) l'
  end.

Definition fromkeys (l : list Py.str) : list Py.str := fromkeys_aux [] l.

(** The list [alternatives] of [get_alternatives] before it is
    deduplicated. *)
Definition collected_alternatives (element : UIElement) : list Py.str :=
  let alternatives := [] in
  let alternatives :=
    if Py.truthy (resource_id element)
       && Dict.mem (resource_id element) (resource_rules self)
    then match Dict.find (resource_id element) (resource_rules self) with
         | Some l => alternatives ++ l
         | None => alternatives
         end
    else alternatives in
  let alternatives :=
    if Py.truthy (class_name element)
       && Dict.mem (class_name element) (class_rules self)
    then match Dict.find (class_name element) (class_rules self) with
         | Some l => alternatives ++ l
         | None => alternatives
         end
    else alternatives in
  if Py.truthy (app_context element)
  then alternatives
         ++ app_alternatives (app_context element) (app_specific_rules self)
  else alternatives.

Definition get_alternatives (element : UIElement) : list Py.str :=
  let unique_alternatives := fromkeys (collected_alternatives element) in
  firstn 5 unique_alternatives.

(** [for pattern in self.resource_rules.keys(): if pattern.lower() in
    resource_lower: return ...] *)
Definition any_resource_partial (resource_lower : Py.str) : bool :=
  existsb (fun pattern => Py.contains (lower pattern) resource_lower)
          (Dict.keys (resource_rules self)).

Definition any_app_key (app_context : Py.str) : bool :=
  existsb (fun app_name => Py.contains app_name app_context)
          (Dict.keys (app_specific_rules self)).

Definition get_matching_confidence (element : UIElement)
  : Py.result (Py.str * Q) :=
  if Py.truthy (content_description element)
  then Py.Ok (#"content_description", 1.0%Q)
  else if Py.truthy (resource_id element)
          && Dict.mem (resource_id element) (resource_rules self)
  then Py.Ok (#"resource_id_exact", 0.95%Q)
  else if Py.truthy (resource_id element)
          && any_resource_partial (lower (resource_id element))
  then Py.Ok (#"resource_id_partial", 0.8%Q)
  else if Py.truthy (app_context element)
          && any_app_key (app_context element)
  then Py.Ok (#"app_context", 0.7%Q)
  else
    t <- (if Py.truthy (text element)
          then _match_text_pattern (text element)
          else Py.Ok None) ;;
    if Py.truthy (text element) && opt_truthy t
    then Py.Ok (#"text_pattern", 0.6%Q)
    else if Py.truthy (class_name element)
            && Dict.mem (class_name element) (class_rules self)
    then Py.Ok (#"class_name_exact", 0.5%Q)
    else if Py.truthy (class_name element)
            && Dict.mem (Py.split_last 46%N (class_name element))
                        (class_rules self)
    then Py.Ok (#"class_name_simple", 0.4%Q)
    else
      c <- _infer_from_context element ;;
      if opt_truthy c
      then Py.Ok (#"context_inference", 0.3%Q)
      else Py.Ok (#"default", 0.1%Q).

End RuleEngine.

(* ================================================================= *)
(** ** Loading the rule tables ([__init__] and [load_rules]) *)

(** The files of the rules directory as [open] and [json.load] see them:
    a path either yields the decoded table or cannot be opened or
    decoded. *)
Record FileSystem : Type := mkFileSystem {
  load_lists : Py.str -> option (Dict.t (list Py.str));
  load_counts : Py.str -> option (Dict.t Z)
}.

Module Loader.

(** Statements that update the engine and may raise. *)
Definition stmt (A : Type) : Type := Engine -> Py.result A * Engine.

Definition ret {A} (a : A) : stmt A := fun self => (Py.Ok a, self).

Definition seq {A B} (m : stmt A) (k : A -> stmt B) : stmt B :=
  fun self =>
    match m self with
    | (Py.Ok a, self') => k a self'
    | (Py.Raise e, self') => (Py.Raise e, self')
    end.

(** [with open(path) as f: json.load(f)] *)
Definition json_load {V} (file : option V) : stmt V :=
  fun self =>
    match file with
    | Some v => (Py.Ok v, self)
    | None => (Py.Raise Py.OSError, self)
    end.

Definition assign (f : Engine -> Engine) : stmt unit :=
  fun self => (Py.Ok tt, f self).

(** [try: body except Exception: handler] *)
Definition try_except {A} (body : stmt A) (handler : Py.exn -> stmt A)
  : stmt A :=
  fun self =>
    match body self with
    | (Py.Ok a, self') => (Py.Ok a, self')
    | (Py.Raise e, self') => handler e self'
    end.

End Loader.

Notation "x <~ m ;; k" := (Loader.seq m (fun x => k))
  (at level 61, m at next level, right associativity).

Definition set_resource_rules v (self : Engine) : Engine :=
  mkEngine (rules_dir self) v (class_rules self) (text_pattern_rules self)
           (app_specific_rules self) (action_rules self) (context_rules self).

Definition set_class_rules v (self : Engine) : Engine :=
  mkEngine (rules_dir self) (resource_rules self) v (text_pattern_rules self)
           (app_specific_rules self) (action_rules self) (context_rules self).

Definition set_text_pattern_rules v (self : Engine) : Engine :=
  mkEngine (rules_dir self) (resource_rules self) (class_rules self) v
           (app_specific_rules self) (action_rules self) (context_rules self).

Definition set_app_specific_rules v (self : Engine) : Engine :=
  mkEngine (rules_dir self) (resource_rules self) (class_rules self)
           (text_pattern_rules self) v (action_rules self)
           (context_rules self).

Definition set_action_rules v (self : Engine) : Engine :=
  mkEngine (rules_dir self) (resource_rules self) (class_rules self)
           (text_pattern_rules self) (app_specific_rules self) v
           (context_rules self).

Section LoadRules.

Variable fs : FileSystem.

Definition load_rules : Loader.stmt unit :=
  fun self =>
  let dir := rules_dir self in
  Loader.try_except
    (r <~ Loader.json_load
            (load_lists fs (dir ++ #"/resource_id_rules.json")) ;;
     _ <~ Loader.assign (set_resource_rules r) ;;
     c <~ Loader.json_load
            (load_lists fs (dir ++ #"/class_name_rules.json")) ;;
     _ <~ Loader.assign (set_class_rules c) ;;
     t <~ Loader.json_load
            (load_lists fs (dir ++ #"/text_pattern_rules.json")) ;;
     _ <~ Loader.assign (set_text_pattern_rules t) ;;
     a <~ Loader.json_load
            (load_lists fs (dir ++ #"/app_specific_rules.json")) ;;
     _ <~ Loader.assign (set_app_specific_rules a) ;;
     w <~ Loader.json_load
            (load_counts fs (dir ++ #"/action_rules.json")) ;;
     Loader.assign (set_action_rules w))
    (fun _ => Loader.ret tt)
    self.

(** [EnhancedAccessibilityRuleEngine(rules_dir)] *)
Definition new_engine (rules_dir : Py.str) : Py.result Engine :=
  let self := mkEngine rules_dir [] [] [] [] [] [] in
  match load_rules self with
  | (Py.Ok _, self') => Py.Ok self'
  | (Py.Raise e, _) => Py.Raise e
  end.

End LoadRules.

(* ================================================================= *)
(** ** The layout parser and report builder
       ([complete_accessibility_system.py]) *)

(** An [xml.etree.ElementTree.Element]: tag, attributes, children. *)
#[warnings="-register-all"]
Inductive Element : Type :=
| Node (tag : Py.str) (attrib : Dict.t Py.str) (children : list Element).

Definition tag (e : Element) : Py.str :=
  match e with Node t _ _ => t end.

Definition attrib (e : Element) : Dict.t Py.str :=
  match e with Node _ a _ => a end.

Definition children (e : Element) : list Element :=
  match e with Node _ _ c => c end.

(** [element.get(key, default)] *)
Definition get_attr (e : Element) (key default : Py.str) : Py.str :=
  match Dict.find key (attrib e) with
  | Some v => v
  | None => default
  end.

(** Element objects are compared and hashed by identity.  The identity of
    a node of a tree is its position: the child indices on the way from
    the node up to the root, so that the [i]-th child of [p] is [i :: p]
    and the root is [[]]. *)
Definition path : Type := list nat.

Definition path_eqb (p q : path) : bool :=
  if list_eq_dec Nat.eq_dec p q then true else false.

(** A reference to an element object: its identity and its contents. *)
Definition handle : Type := (path * Element)%type.

(** The children of [parent] from index [i] on, as [for child in parent]
    yields them. *)
Fixpoint enumerate_from (parent : path) (i : nat) (cs : list Element)
  : list handle :=
  match cs with
  | [] => []
  | c :: cs' => (i :: parent, c) :: enumerate_from parent (S i) cs'
  end.

Definition child_handles (h : handle) : list handle :=
  enumerate_from (fst h) 0 (children (snd h)).

(** [traverse(element, parent)] of [_build_parent_relationships]: the
    entries it adds to [element_parents], in the order of insertion. *)
Fixpoint traverse (me : path) (element : Element) (parent : option handle)
  : list (path * handle) :=
  match parent with
  | Some p => [(me, p)]
  | None => []
  end ++
  match element with
  | Node _ _ cs =>
      (fix over_children (i : nat) (cs : list Element)
         : list (path * handle) :=
         match cs with
         | [] => []
         | c :: cs' =>
             traverse (i :: me) c (Some (me, element))
               ++ over_children (S i) cs'
         end) 0 cs
  end.

(** [root.iter()]: the elements of the tree in document order. *)
Fixpoint iter (me : path) (element : Element) : list handle :=
  (me, element) ::
  match element with
  | Node _ _ cs =>
      (fix over_children (i : nat) (cs : list Element) : list handle :=
         match cs with
         | [] => []
         | c :: cs' => iter (i :: me) c ++ over_children (S i) cs'
         end) 0 cs
  end.

(** The fields of a [CompleteAccessibilitySystem] instance. *)
Record CompleteAccessibilitySystem : Type := mkSystem {
  rule_engine : Engine;
  element_parents : list (path * handle)
}.

(** [self.element_parents.get(element)] *)
Fixpoint parents_get (d : list (path * handle)) (element : path)
  : option handle :=
  match d with
  | [] => None
  | (k, v) :: d' =>
      if path_eqb element k then Some v else parents_get d' element
  end.

Definition _build_parent_relationships (self : CompleteAccessibilitySystem)
    (root : Element) : CompleteAccessibilitySystem :=
  mkSystem (rule_engine self) (traverse [] root None).

Definition ui_classes : list Py.str :=
  [ #"Button"; #"ImageButton"; #"TextView"; #"EditText"; #"ImageView";
    #"CheckBox"; #"RadioButton"; #"Switch"; #"SeekBar"; #"ToggleButton";
    #"FloatingActionButton"; #"Toolbar"; #"BottomNavigationView";
    #"TabLayout"; #"RecyclerView"; #"ListView"; #"Spinner"; #"ProgressBar" ].

Definition _is_ui_element (element : Element) : bool :=
  let class_name := Py.split_last 46%N (tag element) in
  existsb (Py.eqb class_name) ui_classes.

Definition _normalize_resource_id (resource_id : Py.str) : Py.str :=
  if negb (Py.truthy resource_id) then []
  else if Py.startswith #"@+id/" resource_id
          || Py.startswith #"@id/" resource_id
  then Py.slice_from 5 resource_id
  else resource_id.

Definition _get_parent_context (self : CompleteAccessibilitySystem)
    (element : handle) : Py.str :=
  match parents_get (element_parents self) (fst element) with
  | Some parent =>
      let parent_id :=
        _normalize_resource_id (get_attr (snd parent) #"android:id" []) in
      let parent_class := Py.split_last 46%N (tag (snd parent)) in
      parent_class ++ #":" ++ parent_id
  | None => []
  end.

(** The entry [_get_sibling_context] appends for one sibling. *)
Definition sibling_entry (sibling : Element) : Py.str :=
  let sibling_id :=
    _normalize_resource_id (get_attr sibling #"android:id" []) in
  let sibling_class := Py.split_last 46%N (tag sibling) in
  let sibling_text := get_attr sibling #"android:text" [] in
  if Py.truthy sibling_text then sibling_class ++ #":" ++ sibling_text
  else if Py.truthy sibling_id then sibling_class ++ #":" ++ sibling_id
  else sibling_class.

(** [for sibling in parent: if sibling != element: ...] *)
Fixpoint sibling_loop (element : path) (siblings : list handle)
  : list Py.str :=
  match siblings with
  | [] => []
  | sibling :: rest =>
      if negb (path_eqb (fst sibling) element)
      then sibling_entry (snd sibling) :: sibling_loop element rest
      else sibling_loop element rest
  end.

Definition _get_sibling_context (self : CompleteAccessibilitySystem)
    (element : handle) : Py.str :=
  match parents_get (element_parents self) (fst element) with
  | None => []
  | Some parent =>
      let sibling_contexts :=
        sibling_loop (fst element) (child_handles parent) in
      Py.join #" " sibling_contexts
  end.

Definition _extract_app_context (element : handle) : Py.str :=
  #"com.example.app.MainActivity".

(** One suggestion dictionary. *)
Record Suggestion : Type := mkSuggestion {
  s_type : Py.str;
  s_description : Py.str;
  s_current : Py.str;
  s_suggested : Py.str;
  s_confidence : Q;
  s_priority : Py.str
}.

(** The dictionary [_generate_accessibility_result] returns. *)
Record AccessibilityResult : Type := mkResult {
  r_resource_id : Py.str;
  r_class_name : Py.str;
  r_text : Py.str;
  r_current_content_description : Py.str;
  r_generated_alt_text : Py.str;
  r_alternatives : list Py.str;
  r_confidence_type : Py.str;
  r_confidence_score : Q;
  r_clickable : bool;
  r_focusable : bool;
  r_enabled : bool;
  r_suggestions : list Suggestion;
  r_priority : Py.str
}.

(** [a > b] on scores. *)
Definition score_gt (a b : Q) : bool := negb (Qle_bool a b).

Definition _generate_suggestions (element : UIElement) (alt_text : Py.str)
    (confidence_score : Q) : list Suggestion :=
  let suggestions := [] in
  let suggestions :=
    if negb (Py.truthy (content_description element)) then
      suggestions ++
      [mkSuggestion #"missing_content_description"
         #"contentDescription 속성이 없습니다."
         #"없음" alt_text confidence_score
         (if clickable element then #"high" else #"medium")]
    else if Py.truthy (content_description element)
            && score_gt confidence_score 0.7%Q then
      suggestions ++
      [mkSuggestion #"improvement_suggestion"
         #"더 명확한 접근성 텍스트로 개선할 수 있습니다."
         (content_description element) alt_text confidence_score
         #"medium"]
    else suggestions in
  if clickable element && negb (Py.truthy (content_description element))
  then
    suggestions ++
    [mkSuggestion #"clickable_without_description"
       #"클릭 가능한 요소에 접근성 설명이 필요합니다."
       #"없음" alt_text confidence_score #"high"]
  else suggestions.

Definition _calculate_priority (element : UIElement) (confidence_score : Q)
  : Py.str :=
  if clickable element && score_gt confidence_score 0.8%Q then #"high"
  else if clickable element || score_gt confidence_score 0.6%Q
  then #"medium"
  else #"low".

(** One entry of a priority bucket of the report. *)
Record ReportEntry : Type := mkEntry {
  e_resource_id : Py.str;
  e_type : Py.str;
  e_suggested : Py.str;
  e_confidence : Q
}.

Record Summary : Type := mkSummary {
  total_elements : nat;
  elements_with_content_description : nat;
  elements_without_content_description : nat;
  coverage_percentage : Q
}.

Record Report : Type := mkReport {
  summary : Summary;
  high_priority : list ReportEntry;
  medium_priority : list ReportEntry;
  low_priority : list ReportEntry;
  high_priority_count : nat;
  medium_priority_count : nat;
  low_priority_count : nat
}.

(** The entries a result contributes to the bucket selected by [keep]. *)
Definition bucket_of (keep : Py.str -> bool) (result : AccessibilityResult)
  : list ReportEntry :=
  List.map
    (fun suggestion =>
       mkEntry (r_resource_id result) (s_type suggestion)
               (s_suggested suggestion) (s_confidence suggestion))
    (List.filter (fun suggestion => keep (s_priority suggestion))
                 (r_suggestions result)).

Definition generate_report (results : list AccessibilityResult)
  : Py.result Report :=
  let total_elements := List.length results in
  let elements_with_content_description :=
    List.length
      (List.filter
         (fun r => Py.truthy (r_current_content_description r)) results) in
  let elements_without_content_description :=
    total_elements - elements_with_content_description in
  let high_priority_suggestions :=
    List.flat_map (bucket_of (Py.eqb #"high")) results in
  let medium_priority_suggestions :=
    List.flat_map
      (bucket_of (fun p => negb (Py.eqb #"high" p) && Py.eqb #"medium" p))
      results in
  let low_priority_suggestions :=
    List.flat_map
      (bucket_of
         (fun p => negb (Py.eqb #"high" p) && negb (Py.eqb #"medium" p)))
      results in
  coverage <-
    (if 0 <? total_elements
     then q <- Py.truediv
                 (inject_Z (Z.of_nat elements_with_content_description))
                 (inject_Z (Z.of_nat total_elements)) ;;
          Py.Ok (q * 100)%Q
     else Py.Ok 0%Q) ;;
  Py.Ok
    (mkReport
       (mkSummary
          total_elements
          elements_with_content_description
          elements_without_content_description
          coverage)
       high_priority_suggestions
       medium_priority_suggestions
       low_priority_suggestions
       (List.length high_priority_suggestions)
       (List.length medium_priority_suggestions)
       (List.length low_priority_suggestions)).

(** [for x in xs: results.append(f(x))] where [f] may raise. *)
Fixpoint for_each {A B} (f : A -> Py.result B) (xs : list A)
  : Py.result (list B) :=
  match xs with
  | [] => Py.Ok []
  | x :: xs' =>
      y <- f x ;;
      ys <- for_each f xs' ;;
      Py.Ok (y :: ys)
  end.

Section LayoutSystem.

Variable lower : Py.str -> Py.str.

(** [ET.fromstring]: the parsed root, or [ParseError] on markup that is
    not well formed. *)
Variable fromstring : Py.str -> Py.result Element.

Definition _parse_element (self : CompleteAccessibilitySystem)
    (element : handle) (root : Element) : option UIElement :=
  if negb (_is_ui_element (snd element)) then None
  else
    let node := snd element in
    let resource_id :=
      _normalize_resource_id (get_attr node #"android:id" []) in
    let class_name := tag node in
    let text := get_attr node #"android:text" [] in
    let content_description :=
      get_attr node #"android:contentDescription" [] in
    let clickable :=
      Py.eqb (lower (get_attr node #"android:clickable" #"false")) #"true" in
    let focusable :=
      Py.eqb (lower (get_attr node #"android:focusable" #"false")) #"true" in
    let enabled :=
      Py.eqb (lower (get_attr node #"android:enabled" #"true")) #"true" in
    let parent_context := _get_parent_context self element in
    let sibling_context := _get_sibling_context self element in
    let app_context := _extract_app_context element in
    Some (mkUIElement resource_id class_name text content_description []
            clickable focusable enabled
            parent_context sibling_context app_context).

Definition _generate_accessibility_result
    (self : CompleteAccessibilitySystem) (element : UIElement)
  : Py.result AccessibilityResult :=
  alt_text <- generate_alt_text lower (rule_engine self) element ;;
  let alternatives := get_alternatives (rule_engine self) element in
  conf <- get_matching_confidence lower (rule_engine self) element ;;
  let '(confidence_type, confidence_score) := conf in
  let suggestions :=
    _generate_suggestions element alt_text confidence_score in
  Py.Ok (mkResult (resource_id element) (class_name element) (text element)
           (content_description element) alt_text alternatives
           confidence_type confidence_score
           (clickable element) (focusable element) (enabled element)
           suggestions (_calculate_priority element confidence_score)).

(** [ui_elements] of [analyze_xml_layout]: the parsed elements that are
    not [None], in iteration order. *)
Fixpoint collect_ui_elements (self : CompleteAccessibilitySystem)
    (root : Element) (elements : list handle) : list UIElement :=
  match elements with
  | [] => []
  | element :: rest =>
      match _parse_element self element root with
      | Some ui_element =>
          ui_element :: collect_ui_elements self root rest
      | None => collect_ui_elements self root rest
      end
  end.

(** [analyze_xml_layout] returns its list, or the exception that leaves
    it, together with the instance as the call leaves it.  Only
    [ET.ParseError] is caught. *)
Definition analyze_xml_layout (self : CompleteAccessibilitySystem)
    (xml_content : Py.str)
  : Py.result (list AccessibilityResult) * CompleteAccessibilitySystem :=
  match fromstring xml_content with
  | Py.Raise Py.ParseError => (Py.Ok [], self)
  | Py.Raise e => (Py.Raise e, self)
  | Py.Ok root =>
      let self := _build_parent_relationships self root in
      let ui_elements := collect_ui_elements self root (iter [] root) in
      match for_each (_generate_accessibility_result self) ui_elements with
      | Py.Raise Py.ParseError => (Py.Ok [], self)
      | r => (r, self)
      end
  end.

End LayoutSystem.

(* ================================================================= *)
(** ** Which step of [generate_alt_text] returned *)

(** The seven steps of [generate_alt_text], in the order of its body. *)
Inductive label_tier : Type :=
| ByDescription
| ByResourceId
| ByAppContext
| ByTextPattern
| ByClassName
| ByContext
| ByDefault.

Definition tagged_return (tier : label_tier) (alt_text : option Py.str)
    (rest : Py.result (label_tier * Py.str))
  : Py.result (label_tier * Py.str) :=
  match alt_text with
  | Some s => if Py.truthy s then Py.Ok (tier, s) else rest
  | None => rest
  end.

Section LabelTier.

Variable lower : Py.str -> Py.str.
Variable self : Engine.

(** [generate_alt_text] with each [return] tagged by the step it belongs
    to. *)
Definition generate_alt_text_traced (element : UIElement)
  : Py.result (label_tier * Py.str) :=
  if Py.truthy (content_description element)
     && Py.truthy (Py.strip (content_description element))
  then Py.Ok (ByDescription, content_description element)
  else
  alt2 <- (if Py.truthy (resource_id element)
           then _match_resource_id lower self (resource_id element)
           else Py.Ok None) ;;
  tagged_return ByResourceId alt2 (
  let alt3 := if Py.truthy (app_context element)
              then _match_app_context self element
              else None in
  tagged_return ByAppContext alt3 (
  alt4 <- (if Py.truthy (text element)
           then _match_text_pattern lower self (text element)
           else Py.Ok None) ;;
  tagged_return ByTextPattern alt4 (
  alt5 <- (if Py.truthy (class_name element)
           then _match_class_name lower self (class_name element)
           else Py.Ok None) ;;
  tagged_return ByClassName alt5 (
  alt6 <- _infer_from_context lower self element ;;
  tagged_return ByContext alt6 (
  Py.Ok (ByDefault, _get_default_alt_text lower element)))))).

End LabelTier.

(** The label of a traced result. *)
Definition label_of (r : Py.result (label_tier * Py.str))
  : Py.result Py.str :=
  match r with
  | Py.Ok (_, s) => Py.Ok s
  | Py.Raise e => Py.Raise e
  end.

(* ================================================================= *)
(** ** Vocabulary of the statements *)

(** The five files [load_rules] reads, in the order it reads them. *)
Definition resource_id_rules_json (fs : FileSystem) (dir : Py.str) :=
  load_lists fs (dir ++ #"/resource_id_rules.json").

Definition class_name_rules_json (fs : FileSystem) (dir : Py.str) :=
  load_lists fs (dir ++ #"/class_name_rules.json").

Definition text_pattern_rules_json (fs : FileSystem) (dir : Py.str) :=
  load_lists fs (dir ++ #"/text_pattern_rules.json").

Definition app_specific_rules_json (fs : FileSystem) (dir : Py.str) :=
  load_lists fs (dir ++ #"/app_specific_rules.json").

Definition action_rules_json (fs : FileSystem) (dir : Py.str) :=
  load_counts fs (dir ++ #"/action_rules.json").

(** Every key of a table has at least one candidate. *)
Definition has_candidates (d : Dict.t (list Py.str)) : Prop :=
  Forall (fun rule => snd rule <> []) d.

(** Steps 2 to 4 of [generate_alt_text] run without raising and none of
    them returns a label. *)
Definition silent_before_class (lower : Py.str -> Py.str) (self : Engine)
    (element : UIElement) : Prop :=
  exists alt2 alt4,
    (if Py.truthy (resource_id element)
     then _match_resource_id lower self (resource_id element)
     else Py.Ok None) = Py.Ok alt2
    /\ opt_truthy alt2 = false
    /\ opt_truthy (if Py.truthy (app_context element)
                   then _match_app_context self element
                   else None) = false
    /\ (if Py.truthy (text element)
        then _match_text_pattern lower self (text element)
        else Py.Ok None) = Py.Ok alt4
    /\ opt_truthy alt4 = false.

(** Following the specification's words for the partial resource-id match:
    the longest matching pattern, the first in table iteration order among
    patterns of equal length.  [best] is the choice so far. *)
Fixpoint longest_in_table_order (best : option match_tuple)
    (matching : list match_tuple) : option match_tuple :=
  match matching with
  | [] => best
  | x :: rest =>
      match best with
      | None => longest_in_table_order (Some x) rest
      | Some b =>
          if fst (fst b) <? fst (fst x)
          then longest_in_table_order (Some x) rest
          else longest_in_table_order best rest
      end
  end.

Definition spec_partial_resource_match (lower : Py.str -> Py.str)
    (self : Engine) (resource_id : Py.str) : Py.result (option Py.str) :=
  match longest_in_table_order None
          (matching_patterns lower (lower resource_id) (resource_rules self))
  with
  | Some m => c <- Py.first (snd m) ;; Py.Ok (Some c)
  | None => Py.Ok None
  end.

(** The three source lists of [get_alternatives] in the specification's
    words: the resource-rules entry of the element's id, the class-rules
    entry of its class name, and the application rules whose key occurs in
    its application context.  An empty id, class name or application
    context stands for an absent one and contributes nothing. *)
Definition resource_entry (self : Engine) (element : UIElement)
  : list Py.str :=
  match resource_id element, Dict.find (resource_id element)
                                       (resource_rules self) with
  | _ :: _, Some l => l
  | _, _ => []
  end.

Definition class_entry (self : Engine) (element : UIElement)
  : list Py.str :=
  match class_name element, Dict.find (class_name element)
                                      (class_rules self) with
  | _ :: _, Some l => l
  | _, _ => []
  end.

Definition app_entries (self : Engine) (element : UIElement)
  : list Py.str :=
  match app_context element with
  | [] => []
  | _ :: _ =>
      List.concat
        (List.map snd
           (List.filter
              (fun rule => Py.contains (fst rule) (app_context element))
              (app_specific_rules self)))
  end.

Definition alternative_sources (self : Engine) (element : UIElement)
  : list Py.str :=
  resource_entry self element ++ class_entry self element
    ++ app_entries self element.

(** The position at which [x] is first seen in [l]. *)
Fixpoint index_of (x : Py.str) (l : list Py.str) : nat :=
  match l with
  | [] => 0
  | y :: l' => if Py.eqb x y then 0 else S (index_of x l')
  end.

(** [x] is first seen in [l] before [y] is. *)
Definition first_seen_before (l : list Py.str) (x y : Py.str) : Prop :=
  index_of x l < index_of y l.

(** Each value of [l] once, where it occurs first. *)
Fixpoint first_occurrences (l : list Py.str) : list Py.str :=
  match l with
  | [] => []
  | x :: l' =>
      x :: List.filter (fun y => negb (Py.eqb y x)) (first_occurrences l')
  end.

(** The node of [root] at a position, if there is one. *)
Fixpoint node_at (root : Element) (p : path) : option Element :=
  match p with
  | [] => Some root
  | i :: p' =>
      match node_at root p' with
      | Some e => nth_error (children e) i
      | None => None
      end
  end.

(** The children of a node other than the one at index [i]. *)
Definition others (i : nat) (cs : list Element) : list Element :=
  firstn i cs ++ skipn (S i) cs.

(** The loop of [traverse] over the children of [element], from the child
    at index [i] on. *)
Fixpoint traverse_children (me : path) (element : Element) (i : nat)
    (cs : list Element) : list (path * handle) :=
  match cs with
  | [] => []
  | c :: cs' =>
      traverse (i :: me) c (Some (me, element))
        ++ traverse_children me element (S i) cs'
  end.

(** Following the specification's words for one context entry:
    [class:text] when the node has text, else [class:id] when it has an
    id, else the bare class name. *)
Definition spec_context_entry (node : Element) : Py.str :=
  let class := Py.split_last 46%N (tag node) in
  let text := get_attr node #"android:text" [] in
  let id := _normalize_resource_id (get_attr node #"android:id" []) in
  match text, id with
  | _ :: _, _ => class ++ #":" ++ text
  | [], _ :: _ => class ++ #":" ++ id
  | [], [] => class
  end.

(* ================================================================= *)
(** ** Values used in examples *)

(** An engine whose tables are all empty, and an element with every field
    at the default of the data class. *)
Definition empty_engine : Engine :=
  mkEngine #"comprehensive_rules" [] [] [] [] [] [].

Definition element_of (resource_id class_name : Py.str) : UIElement :=
  mkUIElement resource_id class_name [] [] [] false false true [] [] [].

Definition with_description (d : Py.str) (e : UIElement) : UIElement :=
  mkUIElement (resource_id e) (class_name e) (text e) d (bounds e)
              (clickable e) (focusable e) (enabled e)
              (parent_context e) (sibling_context e) (app_context e).

Definition with_app_context (a : Py.str) (e : UIElement) : UIElement :=
  mkUIElement (resource_id e) (class_name e) (text e)
              (content_description e) (bounds e)
              (clickable e) (focusable e) (enabled e)
              (parent_context e) (sibling_context e) a.


(** The back button of the specification's scenario and its rule. *)
Definition back_button : UIElement := element_of #"backBtn" #"ImageButton".

Definition back_rule_engine : Engine :=
  set_resource_rules [(#"backBtn", [#"뒤로 가기"; #"Back"])] empty_engine.

(** A rule for the back button without any candidate. *)
Definition empty_back_rule_engine : Engine :=
  set_resource_rules [(#"backBtn", [])] empty_engine.

(** The tables while only the class rules are on disk. *)
Definition only_class_rules_fs : FileSystem :=
  mkFileSystem
    (fun p =>
       if Py.eqb p #"comprehensive_rules/class_name_rules.json"
       then Some [(#"Button", [#"버튼"])]
       else None)
    (fun _ => None).

(** A parser that knows a single document. *)
Definition toy_fromstring (s : Py.str) : Py.result Element :=
  if Py.eqb s #"<Button/>" then Py.Ok (Node #"Button" [] [])
  else Py.Raise Py.ParseError.

Definition empty_system : CompleteAccessibilitySystem :=
  mkSystem empty_engine [].

(** A class rule without candidates next to an application rule. *)
Definition app_rule_engine : Engine :=
  set_app_specific_rules [(#"com.example", [#"Home"])]
    (set_class_rules [(#"Button", [])] empty_engine).

Definition main_activity_button : UIElement :=
  with_app_context #"com.example.app.MainActivity" (element_of [] #"Button").

Definition empty_class_rule_engine : Engine :=
  set_class_rules [(#"Button", [])] empty_engine.

(** Two rules of equal length that both occur in one resource id. *)
Definition overlapping_rules_engine : Engine :=
  set_resource_rules [(#"ab", [#"first"]); (#"bc", [#"second"])]
                     empty_engine.

(** Rules of different lengths. *)
Definition nested_rules_engine : Engine :=
  set_resource_rules [(#"btn", [#"Button"]); (#"back_btn", [#"Back"])]
                     empty_engine.

(** More candidates than [get_alternatives] returns, some of them twice. *)
Definition crowded_engine : Engine :=
  set_app_specific_rules
    [(#"com.example", [#"Home"; #"Back"; #"Menu"; #"Search"]);
     (#"com.other", [#"Other"])]
    (set_class_rules [(#"ImageButton", [#"Button"; #"Back"; #"Image"])]
       back_rule_engine).

(** A layout without id or text around a button and a labelled text
    view. *)
Definition login_button : Element :=
  Node #"Button" [(#"android:id", #"@+id/login")] [].

Definition title_view : Element :=
  Node #"android.widget.TextView"
       [(#"android:id", #"@+id/title"); (#"android:text", #"Welcome")] [].

Definition plain_image : Element := Node #"ImageView" [] [].

Definition login_layout : Element :=
  Node #"LinearLayout" [] [login_button; title_view; plain_image].

(** The same children inside a layout that has both an id and a text. *)
Definition titled_layout : Element :=
  Node #"LinearLayout"
       [(#"android:id", #"@+id/form"); (#"android:text", #"Sign in")]
       [login_button; title_view; plain_image].

(* ================================================================= *)
(** ** Vocabulary of the further properties *)

(** The pairs [get_matching_confidence] can return, in the order of its
    body. *)
Definition confidence_tiers : list (Py.str * Q) :=
  [ (#"content_description", 1.0%Q);
    (#"resource_id_exact", 0.95%Q);
    (#"resource_id_partial", 0.8%Q);
    (#"app_context", 0.7%Q);
    (#"text_pattern", 0.6%Q);
    (#"class_name_exact", 0.5%Q);
    (#"class_name_simple", 0.4%Q);
    (#"context_inference", 0.3%Q);
    (#"default", 0.1%Q) ].

(** The labels [_get_default_alt_text] can return. *)
Definition default_labels : list Py.str :=
  [ #"버튼"; #"이미지"; #"입력 필드"; #"텍스트"; #"체크박스";
    #"라디오 버튼"; #"스위치"; #"슬라이더"; #"UI 요소" ].

(** [label] is a candidate of some key of the table. *)
Definition candidate_of (d : Dict.t (list Py.str)) (label : Py.str) : Prop :=
  exists key candidates, In (key, candidates) d /\ In label candidates.

(** A step that raises raises [IndexError]. *)
Definition index_error_only {A} (r : Py.result A) : Prop :=
  forall e, r = Py.Raise e -> e = Py.IndexError.

(** A resource rule whose first candidate is the empty string. *)
Definition blank_candidate_engine : Engine :=
  set_class_rules [(#"ImageButton", [#"Image button"])]
    (set_resource_rules [(#"backBtn", [[]; #"Back"])] empty_engine).

(** A [str] that holds a surrogate code point cannot be encoded as
    UTF-8. *)
Definition is_surrogate (c : Py.char) : bool :=
  ((55296 <=? c) && (c <=? 57343))%N.

(** Markup with a lone surrogate between the tags. *)
Definition lone_surrogate_markup : Py.str :=
  #"<Button>" ++ [55296%N] ++ #"</Button>".

(** [toy_fromstring] behind the encoding step of [ET.fromstring]: a [str]
    is encoded as UTF-8 before it is parsed, and the encoding raises
    [UnicodeEncodeError] on a surrogate. *)
Definition encoding_fromstring (s : Py.str) : Py.result Element :=
  if existsb is_surrogate s then Py.Raise Py.UnicodeEncodeError
  else toy_fromstring s.

(** The entries of all suggestions of a result, whatever their
    priority. *)
Definition all_entries (result : AccessibilityResult) : list ReportEntry :=
  bucket_of (fun _ => true) result.

(** What the [except ET.ParseError] clause of [analyze_xml_layout] makes
    of the outcome of the two loops of the [try] block. *)
Definition except_parse_error (r : Py.result (list AccessibilityResult))
  : Py.result (list AccessibilityResult) :=
  match r with
  | Py.Raise Py.ParseError => Py.Ok []
  | r => r
  end.

(** A single button, as the parser returns it for [<Button/>]. *)
Definition lone_button : Element := Node #"Button" [] [].

(** The loop of [iter] over the children of a node, from the child at
    index [i] on. *)
Fixpoint iter_children (me : path) (i : nat) (cs : list Element)
  : list handle :=
  match cs with
  | [] => []
  | c :: cs' => iter (i :: me) c ++ iter_children me (S i) cs'
  end.
(* ================================================================= *)
(** ** Facts about strings and dictionaries *)

Lemma eqb_eq (a b : Py.str) : Py.eqb a b = true <-> a = b.
Proof.
  revert b; induction a as [|x a IH]; intros [|y b]; simpl;
    try (split; intro H; congruence).
  rewrite andb_true_iff, N.eqb_eq, IH.
  split; [intros [-> ->]; reflexivity | intros H; inversion H; auto].
Qed.

Lemma eqb_refl (a : Py.str) : Py.eqb a a = true.
Proof. apply eqb_eq; reflexivity. Qed.

Lemma eqb_neq (a b : Py.str) : Py.eqb a b = false <-> a <> b.
Proof.
  split.
  - intros H E. apply eqb_eq in E. congruence.
  - intros H. destruct (Py.eqb a b) eqn:E; [|reflexivity].
    apply eqb_eq in E. contradiction.
Qed.

Lemma truthy_true (s : Py.str) : Py.truthy s = true <-> s <> [].
Proof. destruct s; simpl; split; congruence. Qed.

Lemma lstrip_all_space (s : Py.str) :
  forallb Py.isspace s = true -> Py.lstrip s = [].
Proof.
  induction s as [|c s IH]; simpl; [reflexivity|].
  intros H. apply andb_true_iff in H as [Hc Hs].
  rewrite Hc. auto.
Qed.

Lemma strip_all_space (s : Py.str) :
  forallb Py.isspace s = true -> Py.strip s = [].
Proof.
  intros H. unfold Py.strip. rewrite (lstrip_all_space s H). reflexivity.
Qed.

Lemma strip_nonempty (s : Py.str) : Py.strip s <> [] -> s <> [].
Proof. intros H E. subst s. apply H. reflexivity. Qed.

Lemma split_on_aux_nonempty sep cur s : Py.split_on_aux sep cur s <> [].
Proof.
  revert cur; induction s as [|c s IH]; intros cur; simpl; [discriminate|].
  destruct (N.eqb c sep); [discriminate | apply IH].
Qed.

Lemma split_on_nonempty sep s : Py.split_on sep s <> [].
Proof. apply split_on_aux_nonempty. Qed.

Lemma find_mem_true {V} k (d : Dict.t V) v :
  Dict.find k d = Some v -> Dict.mem k d = true.
Proof. unfold Dict.mem. intros ->. reflexivity. Qed.

Lemma find_mem_false {V} k (d : Dict.t V) :
  Dict.find k d = None <-> Dict.mem k d = false.
Proof. unfold Dict.mem. destruct (Dict.find k d); split; congruence. Qed.

Lemma find_In {V} k (d : Dict.t V) v :
  Dict.find k d = Some v -> In (k, v) d.
Proof.
  induction d as [|[k' v'] d IH]; simpl; [discriminate|].
  destruct (Py.eqb k k') eqn:E.
  - apply eqb_eq in E. subst k'. intros H; inversion H; auto.
  - auto.
Qed.

Lemma In_mem {V} k (d : Dict.t V) v : In (k, v) d -> Dict.mem k d = true.
Proof.
  unfold Dict.mem.
  induction d as [|[k' v'] d IH]; simpl; [tauto|].
  intros [H|H].
  - inversion H; subst. rewrite eqb_refl. reflexivity.
  - destruct (Py.eqb k k'); [reflexivity | auto].
Qed.

Lemma distinct_keys_In {V} (d : Dict.t V) k v :
  Dict.distinct_keys d = true -> In (k, v) d -> Dict.find k d = Some v.
Proof.
  induction d as [|[k' v'] d IH]; simpl; [tauto|].
  intros Hd [H|H].
  - inversion H; subst. rewrite eqb_refl. reflexivity.
  - apply andb_true_iff in Hd as [Hk Hd].
    destruct (Py.eqb k k') eqn:E.
    + apply eqb_eq in E. subst k'.
      rewrite (In_mem _ _ _ H) in Hk. discriminate.
    + auto.
Qed.

Lemma distinct_keys_functional {V} (d : Dict.t V) k v v' :
  Dict.distinct_keys d = true -> In (k, v) d -> In (k, v') d -> v = v'.
Proof.
  intros Hd H H'.
  apply (distinct_keys_In _ _ _ Hd) in H.
  apply (distinct_keys_In _ _ _ Hd) in H'.
  congruence.
Qed.

(* ================================================================= *)
(** ** The traced label is the label *)

Lemma tagged_return_label tier alt rest :
  label_of (tagged_return tier alt rest)
  = return_if_truthy alt (label_of rest).
Proof.
  destruct alt as [s|]; simpl; [destruct (Py.truthy s)|]; reflexivity.
Qed.

Lemma generate_alt_text_traced_label lower self element :
  label_of (generate_alt_text_traced lower self element)
  = generate_alt_text lower self element.
Proof.
  unfold generate_alt_text_traced, generate_alt_text, generate_from_rules.
  destruct (Py.truthy (content_description element)
            && Py.truthy (Py.strip (content_description element)));
    [reflexivity|].
  destruct (if Py.truthy (resource_id element)
            then _match_resource_id lower self (resource_id element)
            else Py.Ok None) as [alt2|e]; [|reflexivity].
  cbn [Py.bind]. rewrite !tagged_return_label. do 2 f_equal.
  destruct (if Py.truthy (text element)
            then _match_text_pattern lower self (text element)
            else Py.Ok None) as [alt4|e]; [|reflexivity].
  cbn [Py.bind]. rewrite tagged_return_label. f_equal.
  destruct (if Py.truthy (class_name element)
            then _match_class_name lower self (class_name element)
            else Py.Ok None) as [alt5|e]; [|reflexivity].
  cbn [Py.bind]. rewrite tagged_return_label. f_equal.
  destruct (_infer_from_context lower self element) as [alt6|e];
    [|reflexivity].
  cbn [Py.bind]. rewrite tagged_return_label. reflexivity.
Qed.

(* ================================================================= *)
(** ** Tier 1: the explicit description *)

(** C1.  When the description of an element is not empty after trimming
    whitespace, [generate_alt_text] returns the description itself and
    [get_matching_confidence] returns the tier [content_description] with
    score 1.0, whatever the rule tables hold: no other tier is
    consulted. *)
Theorem explicit_description_is_label
    (lower : Py.str -> Py.str) (self : Engine) (element : UIElement) :
  Py.strip (content_description element) <> [] ->
  generate_alt_text lower self element
    = Py.Ok (content_description element)
  /\ get_matching_confidence lower self element
    = Py.Ok (#"content_description", 1.0%Q).
Proof.
  intros H.
  assert (Hs : Py.truthy (Py.strip (content_description element)) = true)
    by (apply truthy_true; exact H).
  assert (Hd : Py.truthy (content_description element) = true)
    by (apply truthy_true, strip_nonempty; exact H).
  unfold generate_alt_text, get_matching_confidence.
  rewrite Hd, Hs. split; reflexivity.
Qed.

(** A described element over tables that would otherwise make the
    resource-id tier fail. *)
Lemma explicit_description_is_label_witness :
  Py.strip (content_description (with_description #"  Go back " back_button))
    = #"Go back"
  /\ generate_alt_text Py.ascii_lower empty_back_rule_engine
       (with_description #"  Go back " back_button)
     = Py.Ok #"  Go back "
  /\ get_matching_confidence Py.ascii_lower empty_back_rule_engine
       (with_description #"  Go back " back_button)
     = Py.Ok (#"content_description", 1.0%Q).
Proof.
  split; [reflexivity|].
  apply (explicit_description_is_label Py.ascii_lower
           empty_back_rule_engine
           (with_description #"  Go back " back_button)).
  vm_compute. discriminate.
Defined.

(** C9.  When the description is not empty but holds whitespace only,
    [get_matching_confidence] still returns the tier
    [content_description] with score 1.0, while [generate_alt_text] skips
    the description: its label is the one steps 2 to 7 produce, the label
    of the same element without a description. *)
Theorem whitespace_description_diverges
    (lower : Py.str -> Py.str) (self : Engine) (element : UIElement) :
  content_description element <> [] ->
  forallb Py.isspace (content_description element) = true ->
  get_matching_confidence lower self element
    = Py.Ok (#"content_description", 1.0%Q)
  /\ generate_alt_text lower self element
     = generate_from_rules lower self element
  /\ generate_alt_text lower self element
     = generate_alt_text lower self (with_description [] element).
Proof.
  intros Hne Hws.
  apply truthy_true in Hne.
  apply strip_all_space in Hws.
  unfold get_matching_confidence, generate_alt_text.
  rewrite Hne, Hws. simpl.
  repeat split; reflexivity.
Qed.

(** A blank description next to an exact resource-id rule: the label comes
    from the rule, the confidence from the description. *)
Lemma whitespace_description_diverges_witness :
  get_matching_confidence Py.ascii_lower back_rule_engine
    (with_description #"  " back_button)
    = Py.Ok (#"content_description", 1.0%Q)
  /\ generate_alt_text Py.ascii_lower back_rule_engine
       (with_description #"  " back_button)
     = Py.Ok #"뒤로 가기".
Proof.
  destruct (whitespace_description_diverges Py.ascii_lower
              back_rule_engine (with_description #"  " back_button))
    as (Hc & Hl & _).
  - vm_compute. discriminate.
  - reflexivity.
  - split; [exact Hc|]. rewrite Hl. reflexivity.
Defined.

(* ================================================================= *)
(** ** Resource-id normalisation *)

(** C2.  [_normalize_resource_id] drops five characters whichever marker
    it found: right for the five characters of the new-identifier marker,
    one too many for the four of the plain marker, so that the plain
    marker costs the identifier its first character.  An id without a
    marker is returned as it is and the empty id gives the empty
    string. *)
Theorem normalize_resource_id_drops_five :
  _normalize_resource_id #"@+id/backBtn" = #"backBtn"
  /\ _normalize_resource_id #"@id/backBtn" = #"ackBtn"
  /\ _normalize_resource_id #"backBtn" = #"backBtn"
  /\ _normalize_resource_id [] = []
  /\ (forall rest,
        _normalize_resource_id (#"@+id/" ++ rest) = rest)
  /\ (forall c rest,
        _normalize_resource_id (#"@id/" ++ c :: rest) = rest).
Proof.
  repeat split; try reflexivity.
Qed.

(* ================================================================= *)
(** ** The partial resource-id match *)

Lemma compare_refl (a : Py.str) : Py.compare a a = Eq.
Proof.
  induction a as [|x a IH]; simpl; [reflexivity|].
  rewrite N.compare_refl. exact IH.
Qed.

Lemma compare_antisym (a b : Py.str) :
  Py.compare b a = CompOpp (Py.compare a b).
Proof.
  revert b; induction a as [|x a IH]; intros [|y b]; simpl; try reflexivity.
  rewrite (N.compare_antisym x y).
  destruct (N.compare x y); simpl; auto.
Qed.

Lemma compare_list_refl (a : list Py.str) : Py.compare_list a a = Eq.
Proof.
  induction a as [|x a IH]; simpl; [reflexivity|].
  rewrite compare_refl. exact IH.
Qed.

Lemma compare_list_antisym (a b : list Py.str) :
  Py.compare_list b a = CompOpp (Py.compare_list a b).
Proof.
  revert b; induction a as [|x a IH]; intros [|y b]; simpl; try reflexivity.
  rewrite (compare_antisym x y).
  destruct (Py.compare x y); simpl; auto.
Qed.

Lemma tuple_compare_refl (a : match_tuple) : tuple_compare a a = Eq.
Proof.
  destruct a as [[n p] l]. simpl.
  rewrite Nat.compare_refl, compare_refl. apply compare_list_refl.
Qed.

Lemma tuple_compare_antisym (a b : match_tuple) :
  tuple_compare b a = CompOpp (tuple_compare a b).
Proof.
  destruct a as [[n p] l], b as [[n' p'] l']. simpl.
  rewrite (Nat.compare_antisym n n'), (compare_antisym p p'),
    (compare_list_antisym l l').
  destruct (Nat.compare n n'); simpl; auto.
  destruct (Py.compare p p'); simpl; auto.
Qed.

Lemma insert_desc_In (x y : match_tuple) (l : list match_tuple) :
  In y (insert_desc x l) <-> y = x \/ In y l.
Proof.
  induction l as [|z l IH]; simpl; [intuition congruence|].
  destruct (tuple_compare x z); simpl; rewrite ?IH; intuition congruence.
Qed.

Lemma sort_reverse_In (y : match_tuple) (l : list match_tuple) :
  In y (sort_reverse l) <-> In y l.
Proof.
  induction l as [|x l IH]; simpl; [tauto|].
  rewrite insert_desc_In, IH. intuition congruence.
Qed.

(** The first element of the sorted list is the greatest tuple. *)
Lemma sort_reverse_head (m : match_tuple) (l : list match_tuple) :
  In m l ->
  (forall x, In x l -> x = m \/ tuple_compare x m = Lt) ->
  exists tl, sort_reverse l = m :: tl.
Proof.
  induction l as [|a l IH]; simpl; [tauto|].
  intros Hin Hmax.
  destruct (Hmax a (or_introl eq_refl)) as [Ha | Ha].
  - subst a.
    destruct (sort_reverse l) as [|y s] eqn:Es; simpl; [eauto|].
    assert (Hy : In y l) by (apply sort_reverse_In; rewrite Es; left; auto).
    destruct (Hmax y (or_intror Hy)) as [-> | Hlt].
    + rewrite tuple_compare_refl. eauto.
    + rewrite (tuple_compare_antisym y m), Hlt. simpl. eauto.
  - assert (Hm : In m l).
    { destruct Hin as [-> | H]; [|exact H].
      rewrite tuple_compare_refl in Ha. discriminate. }
    destruct (IH Hm (fun x Hx => Hmax x (or_intror Hx))) as [tl ->].
    simpl. rewrite Ha. eauto.
Qed.

Lemma matching_patterns_In lower rl items n k a :
  In (n, k, a) (matching_patterns lower rl items)
  <-> In (k, a) items /\ Py.contains (lower k) rl = true
      /\ n = List.length k.
Proof.
  induction items as [|[k' a'] items IH]; simpl; [tauto|].
  destruct (Py.contains (lower k') rl) eqn:E; simpl; rewrite IH.
  - split.
    + intros [H | H]; [inversion H; subst; auto | tauto].
    + intros ([H | H] & Hc & Hn);
        [inversion H; subst; auto | tauto].
  - split; [tauto|].
    intros ([H | H] & Hc & Hn); [|tauto].
    inversion H; subst. congruence.
Qed.

Lemma In_keys {V} (d : Dict.t V) k v : In (k, v) d -> In k (Dict.keys d).
Proof. intros H. apply (in_map fst) in H. exact H. Qed.

(** C3, as the specification states it, fails: "ab" and "bc" both occur
    in "abc" and are equally long; "ab" comes first in the table, yet the
    label is the candidate of "bc". *)
Lemma equal_length_tie_not_in_table_order :
  content_description (element_of #"abc" #"Button") = []
  /\ Dict.mem #"abc" (resource_rules overlapping_rules_engine) = false
  /\ spec_partial_resource_match Py.ascii_lower overlapping_rules_engine
       #"abc" = Py.Ok (Some #"first")
  /\ _match_resource_id Py.ascii_lower overlapping_rules_engine #"abc"
     = Py.Ok (Some #"second")
  /\ generate_alt_text Py.ascii_lower overlapping_rules_engine
       (element_of #"abc" #"Button") = Py.Ok #"second".
Proof. repeat split; reflexivity. Qed.

(** C3, amended.  For an element with an empty description and a
    resource id that is not empty and not a key of [resource_rules], the
    resource-id tier selects, among the keys whose lower-case form occurs
    in the lower-case id, the longest one, and among the longest ones the
    greatest in the order of strings; [_match_resource_id] returns the
    first candidate of that key, and a candidate that is not the empty
    string is the label. *)
Theorem partial_match_selects_longest_then_greatest
    (lower : Py.str -> Py.str) (self : Engine) (element : UIElement)
    (key : Py.str) (alternatives : list Py.str) :
  content_description element = [] ->
  resource_id element <> [] ->
  Dict.distinct_keys (resource_rules self) = true ->
  Dict.mem (resource_id element) (resource_rules self) = false ->
  In (key, alternatives) (resource_rules self) ->
  Py.contains (lower key) (lower (resource_id element)) = true ->
  (forall k,
      In k (Dict.keys (resource_rules self)) ->
      Py.contains (lower k) (lower (resource_id element)) = true ->
      k <> key ->
      List.length k < List.length key
      \/ (List.length k = List.length key /\ Py.compare k key = Lt)) ->
  _match_resource_id lower self (resource_id element)
    = (c <- Py.first alternatives ;; Py.Ok (Some c))
  /\ forall c rest,
       alternatives = c :: rest -> c <> [] ->
       generate_alt_text lower self element = Py.Ok c.
Proof.
  intros Hd Hr Hk Hm Hin Hc Hmax.
  assert (Hres : _match_resource_id lower self (resource_id element)
                 = (c <- Py.first alternatives ;; Py.Ok (Some c))).
  { unfold _match_resource_id. rewrite Hm.
    set (matching := matching_patterns lower (lower (resource_id element))
                       (resource_rules self)).
    assert (Hmm : In (List.length key, key, alternatives) matching).
    { apply matching_patterns_In. auto. }
    destruct (sort_reverse_head (List.length key, key, alternatives)
                matching Hmm) as [tl Htl].
    - intros [[n k] a] Hx.
      apply matching_patterns_In in Hx as (Hx & Hcx & ->).
      destruct (Py.eqb k key) eqn:E.
      + apply eqb_eq in E. subst k. left.
        rewrite (distinct_keys_functional _ _ _ _ Hk Hx Hin). reflexivity.
      + apply eqb_neq in E. right.
        destruct (Hmax k (In_keys _ _ _ Hx) Hcx E) as [Hl | [Hl Hlt]];
          simpl.
        * apply Nat.compare_lt_iff in Hl. rewrite Hl. reflexivity.
        * rewrite Hl, Nat.compare_refl, Hlt. reflexivity.
    - rewrite Htl. destruct matching; [destruct Hmm | reflexivity]. }
  split; [exact Hres|].
  intros c rest -> Hne.
  unfold generate_alt_text. rewrite Hd. simpl.
  unfold generate_from_rules.
  apply truthy_true in Hr. rewrite Hr, Hres. simpl.
  apply truthy_true in Hne. rewrite Hne. reflexivity.
Qed.

(** The longer key wins whatever its place in the table, and of two keys
    of equal length the greater one wins. *)
Lemma partial_match_selects_longest_then_greatest_witness :
  (_match_resource_id Py.ascii_lower nested_rules_engine #"Back_Btn_1"
     = Py.Ok (Some #"Back")
   /\ generate_alt_text Py.ascii_lower nested_rules_engine
        (element_of #"Back_Btn_1" #"Button") = Py.Ok #"Back")
  /\ generate_alt_text Py.ascii_lower overlapping_rules_engine
       (element_of #"abc" #"Button") = Py.Ok #"second".
Proof.
  split.
  - destruct (partial_match_selects_longest_then_greatest Py.ascii_lower
                nested_rules_engine (element_of #"Back_Btn_1" #"Button")
                #"back_btn" [#"Back"]) as [H1 H2].
    + reflexivity.
    + vm_compute. discriminate.
    + reflexivity.
    + reflexivity.
    + right. left. reflexivity.
    + reflexivity.
    + intros k [<- | [<- | []]] _ Hne.
      * left. vm_compute. lia.
      * contradiction Hne. reflexivity.
    + split; [exact H1|].
      apply (H2 #"Back" []); [reflexivity | vm_compute; discriminate].
  - destruct (partial_match_selects_longest_then_greatest Py.ascii_lower
                overlapping_rules_engine (element_of #"abc" #"Button")
                #"bc" [#"second"]) as [_ H2].
    + reflexivity.
    + vm_compute. discriminate.
    + reflexivity.
    + reflexivity.
    + right. left. reflexivity.
    + reflexivity.
    + intros k [<- | [<- | []]] _ Hne.
      * right. split; reflexivity.
      * contradiction Hne. reflexivity.
    + apply (H2 #"second" []); [reflexivity | vm_compute; discriminate].
Defined.

(* ================================================================= *)
(** ** Label and confidence are selected separately *)

(** C4.  The step that returns the label and the tier the confidence
    reports are computed by two passes and can differ: for a class rule
    that matches the class name only as a substring, step 5 (the class
    name) returns the label, while [get_matching_confidence], which knows
    no partial class match, reports the tier [default] with score 0.1. *)
Theorem label_and_confidence_can_diverge :
  exists (self : Engine) (element : UIElement) (label : Py.str),
    generate_alt_text_traced Py.ascii_lower self element
      = Py.Ok (ByClassName, label)
    /\ generate_alt_text Py.ascii_lower self element = Py.Ok label
    /\ _match_class_name Py.ascii_lower self (class_name element)
       = Py.Ok (Some label)
    /\ get_matching_confidence Py.ascii_lower self element
       = Py.Ok (#"default", 0.1%Q).
Proof.
  exists (set_class_rules [(#"button", [#"Press"])] empty_engine),
         (element_of [] #"android.widget.ImageButton"),
         #"Press".
  repeat split; reflexivity.
Qed.

(* ================================================================= *)
(** ** Rules without candidates *)

Lemma strip_empty_skips_description lower self element :
  Py.strip (content_description element) = [] ->
  generate_alt_text lower self element
  = generate_from_rules lower self element.
Proof.
  intros H. unfold generate_alt_text. rewrite H. simpl.
  rewrite andb_false_r. reflexivity.
Qed.

(** When every key has a candidate, no step indexes an empty list. *)
Lemma has_candidates_find d k l :
  has_candidates d -> Dict.find k d = Some l -> l <> [].
Proof.
  intros H Hf. apply find_In in Hf.
  unfold has_candidates in H. rewrite Forall_forall in H.
  exact (H _ Hf).
Qed.

Lemma action_category_loop_total lower word items :
  exists r, action_category_loop lower word items = Py.Ok r.
Proof.
  induction items as [|[k patterns] items IH]; simpl; [eauto|].
  destruct (any_pattern_with lower word patterns) eqn:E; [|exact IH].
  destruct patterns; [discriminate | simpl; eauto].
Qed.

Lemma text_word_loop_total lower self words :
  exists r, text_word_loop lower self words = Py.Ok r.
Proof.
  induction words as [|w words IH]; simpl; [eauto|].
  destruct (Dict.mem w (action_rules self)); [|exact IH].
  destruct (action_category_loop_total lower w (text_pattern_rules self))
    as [[p|] ->]; simpl; eauto.
Qed.

Lemma match_text_pattern_total lower self text :
  exists r, _match_text_pattern lower self text = Py.Ok r.
Proof.
  unfold _match_text_pattern.
  destruct (negb (Py.truthy text)); [eauto|].
  destruct (category_loop lower (lower text) (text_pattern_rules self));
    [eauto | apply text_word_loop_total].
Qed.

Lemma context_word_loop_total lower self context items :
  exists r, context_word_loop lower self context items = Py.Ok r.
Proof.
  induction items as [|[w n] items IH]; simpl; [eauto|].
  destruct (Py.contains w context); [|exact IH].
  destruct (action_category_loop_total lower w (text_pattern_rules self))
    as [[p|] ->]; simpl; eauto.
Qed.

Lemma infer_from_context_total lower self element :
  exists r, _infer_from_context lower self element = Py.Ok r.
Proof.
  unfold _infer_from_context.
  destruct (category_loop lower _ (text_pattern_rules self));
    [eauto | apply context_word_loop_total].
Qed.

Lemma match_resource_id_total lower self resource_id :
  has_candidates (resource_rules self) ->
  exists r, _match_resource_id lower self resource_id = Py.Ok r.
Proof.
  intros H. unfold _match_resource_id, Dict.mem, Dict.get.
  destruct (Dict.find resource_id (resource_rules self)) as [l|] eqn:E.
  - pose proof (has_candidates_find _ _ _ H E) as Hl.
    destruct l; [congruence | simpl; eauto].
  - cbv iota.
    set (matching := matching_patterns lower (lower resource_id)
                       (resource_rules self)).
    destruct matching as [|m0 rest] eqn:Em; [eauto|].
    destruct (sort_reverse (m0 :: rest)) as [|[[n k] a] s] eqn:Es.
    + exfalso.
      assert (Hin : In m0 (sort_reverse (m0 :: rest)))
        by (apply sort_reverse_In; left; reflexivity).
      rewrite Es in Hin. destruct Hin.
    + assert (Hin : In (n, k, a) (m0 :: rest)).
      { apply sort_reverse_In. rewrite Es. left. reflexivity. }
      rewrite <- Em in Hin. apply matching_patterns_In in Hin as (Hin & _).
      unfold has_candidates in H. rewrite Forall_forall in H.
      pose proof (H _ Hin) as Ha. simpl in Ha.
      destruct a; [congruence | simpl; eauto].
Qed.

Lemma class_partial_loop_total lower class_lower items :
  has_candidates items ->
  exists r, class_partial_loop lower class_lower items = Py.Ok r.
Proof.
  induction 1 as [|[k a] items Ha _ IH]; simpl; [eauto|].
  destruct (Py.contains (lower k) class_lower); [|exact IH].
  simpl in Ha. destruct a; [congruence | simpl; eauto].
Qed.

Lemma match_class_name_total lower self class_name :
  has_candidates (class_rules self) ->
  exists r, _match_class_name lower self class_name = Py.Ok r.
Proof.
  intros H. unfold _match_class_name, Dict.mem, Dict.get.
  destruct (Dict.find class_name (class_rules self)) as [l|] eqn:E.
  - pose proof (has_candidates_find _ _ _ H E) as Hl.
    destruct l; [congruence | simpl; eauto].
  - cbv iota.
    destruct (Dict.find (Py.split_last 46%N class_name) (class_rules self))
      as [l|] eqn:E'.
    + pose proof (has_candidates_find _ _ _ H E') as Hl.
      destruct l; [congruence | simpl; eauto].
    + apply class_partial_loop_total. exact H.
Qed.

Lemma return_if_truthy_total alt rest :
  (exists label, rest = Py.Ok label) ->
  exists label, return_if_truthy alt rest = Py.Ok label.
Proof.
  intros H. destruct alt as [s|]; simpl; [|exact H].
  destruct (Py.truthy s); [eauto | exact H].
Qed.

(** [generate_alt_text] returns a label whenever every key of the
    resource and class tables has a candidate. *)
Lemma generate_alt_text_total lower self element :
  has_candidates (resource_rules self) ->
  has_candidates (class_rules self) ->
  exists label, generate_alt_text lower self element = Py.Ok label.
Proof.
  intros Hr Hc. unfold generate_alt_text.
  destruct (Py.truthy (content_description element)
            && Py.truthy (Py.strip (content_description element)));
    [eauto|].
  unfold generate_from_rules.
  assert (H2 : exists alt2,
             (if Py.truthy (resource_id element)
              then _match_resource_id lower self (resource_id element)
              else Py.Ok None) = Py.Ok alt2).
  { destruct (Py.truthy (resource_id element));
      [apply match_resource_id_total; exact Hr | eauto]. }
  destruct H2 as [alt2 ->]. cbn [Py.bind].
  do 2 apply return_if_truthy_total.
  assert (H4 : exists alt4,
             (if Py.truthy (text element)
              then _match_text_pattern lower self (text element)
              else Py.Ok None) = Py.Ok alt4).
  { destruct (Py.truthy (text element));
      [apply match_text_pattern_total | eauto]. }
  destruct H4 as [alt4 ->]. cbn [Py.bind].
  apply return_if_truthy_total.
  assert (H5 : exists alt5,
             (if Py.truthy (class_name element)
              then _match_class_name lower self (class_name element)
              else Py.Ok None) = Py.Ok alt5).
  { destruct (Py.truthy (class_name element));
      [apply match_class_name_total; exact Hc | eauto]. }
  destruct H5 as [alt5 ->]. cbn [Py.bind].
  apply return_if_truthy_total.
  destruct (infer_from_context_total lower self element) as [alt6 ->].
  cbn [Py.bind]. apply return_if_truthy_total. eauto.
Qed.

(** C10, as the specification states it, fails: a class name mapped to the
    empty list does no harm when an earlier step, here the application
    context, returns the label. *)
Lemma empty_class_rule_not_reached :
  content_description main_activity_button = []
  /\ Dict.mem (resource_id main_activity_button)
              (resource_rules app_rule_engine) = false
  /\ Dict.find (class_name main_activity_button)
               (class_rules app_rule_engine) = Some []
  /\ generate_alt_text Py.ascii_lower app_rule_engine main_activity_button
     = Py.Ok #"Home".
Proof. repeat split; reflexivity. Qed.

(** C10, amended.  For an element whose description is empty after
    trimming, [generate_alt_text] raises [IndexError] instead of falling
    through to a lower step
    - when its resource id is not empty and is a key of [resource_rules]
      mapped to the empty list, and
    - when steps 2 to 4 return no label, its class name is not empty, and
      the class name, or its last segment when the class name is not a key,
      is a key of [class_rules] mapped to the empty list. *)
Theorem empty_candidate_list_raises
    (lower : Py.str -> Py.str) (self : Engine) (element : UIElement) :
  Py.strip (content_description element) = [] ->
  (resource_id element <> []
   /\ Dict.find (resource_id element) (resource_rules self) = Some [])
  \/ (silent_before_class lower self element
      /\ class_name element <> []
      /\ (Dict.find (class_name element) (class_rules self) = Some []
          \/ (Dict.find (class_name element) (class_rules self) = None
              /\ Dict.find (Py.split_last 46%N (class_name element))
                           (class_rules self) = Some []))) ->
  generate_alt_text lower self element = Py.Raise Py.IndexError.
Proof.
  intros Hd H.
  rewrite (strip_empty_skips_description lower self element Hd).
  unfold generate_from_rules.
  destruct H as [[Hr Hf] | [(alt2 & alt4 & H2 & T2 & T3 & H4 & T4) [Hc Hf]]].
  - apply truthy_true in Hr. rewrite Hr.
    unfold _match_resource_id, Dict.get.
    rewrite (find_mem_true _ _ _ Hf), Hf. reflexivity.
  - rewrite H2. cbn [Py.bind].
    assert (R : forall alt rest,
               opt_truthy alt = false -> return_if_truthy alt rest = rest).
    { intros [s|] rest; simpl; [intros ->|]; reflexivity. }
    rewrite (R _ _ T2), (R _ _ T3), H4. cbn [Py.bind]. rewrite (R _ _ T4).
    apply truthy_true in Hc. rewrite Hc.
    unfold _match_class_name, Dict.get.
    destruct Hf as [Hf | [Hn Hf]].
    + rewrite (find_mem_true _ _ _ Hf), Hf. reflexivity.
    + apply find_mem_false in Hn. rewrite Hn.
      rewrite (find_mem_true _ _ _ Hf), Hf. reflexivity.
Qed.

(** Both cases at work: the back button over a rule without candidates,
    and a button over a class rule without candidates. *)
Lemma empty_candidate_list_raises_witness :
  generate_alt_text Py.ascii_lower empty_back_rule_engine back_button
    = Py.Raise Py.IndexError
  /\ generate_alt_text Py.ascii_lower empty_class_rule_engine
       (element_of [] #"android.widget.Button")
     = Py.Raise Py.IndexError.
Proof.
  split.
  - apply (empty_candidate_list_raises Py.ascii_lower
             empty_back_rule_engine back_button).
    + reflexivity.
    + left. split; [vm_compute; discriminate | reflexivity].
  - apply (empty_candidate_list_raises Py.ascii_lower
             empty_class_rule_engine
             (element_of [] #"android.widget.Button")).
    + reflexivity.
    + right. split; [|split].
      * exists None, None. repeat split; reflexivity.
      * vm_compute. discriminate.
      * right. split; reflexivity.
Defined.

(* ================================================================= *)
(** ** The alternatives *)

Lemma collected_alternatives_sources self element :
  collected_alternatives self element = alternative_sources self element.
Proof.
  unfold collected_alternatives, alternative_sources, resource_entry,
    class_entry, app_entries, Dict.mem.
  assert (Happ : forall ctx items,
             app_alternatives ctx items
             = List.concat
                 (List.map snd
                    (List.filter (fun rule => Py.contains (fst rule) ctx)
                                 items))).
  { intros ctx items.
    induction items as [|[k v] items IH]; simpl; [reflexivity|].
    destruct (Py.contains k ctx); simpl; rewrite IH; reflexivity. }
  rewrite Happ.
  destruct (resource_id element) as [|c1 r1];
    destruct (class_name element) as [|c2 r2];
    destruct (app_context element) as [|c3 r3];
    cbn [Py.truthy andb app];
    repeat match goal with
      | |- context [Dict.find ?k ?d] => destruct (Dict.find k d)
      end;
    cbn [app]; rewrite <- ?app_assoc, ?app_nil_r; reflexivity.
Qed.

Lemma filter_filter_ext {A} (f g h : A -> bool) (l : list A) :
  (forall x, h x = f x && g x) ->
  List.filter f (List.filter g l) = List.filter h l.
Proof.
  intros H. induction l as [|x l IH]; simpl; [reflexivity|].
  rewrite H.
  destruct (g x); simpl; [destruct (f x); simpl; congruence|].
  rewrite andb_false_r. exact IH.
Qed.

(** The dictionary built by [dict.fromkeys] lists the first
    occurrences. *)
Lemma fromkeys_aux_first_occurrences seen l :
  fromkeys_aux seen l
  = rev seen
    ++ List.filter (fun x => negb (existsb (Py.eqb x) seen))
                   (first_occurrences l).
Proof.
  revert seen; induction l as [|x l IH]; intros seen; simpl.
  - rewrite app_nil_r. reflexivity.
  - destruct (existsb (Py.eqb x) seen) eqn:E; rewrite IH; simpl.
    + f_equal. symmetry. apply filter_filter_ext.
      intros y. destruct (Py.eqb y x) eqn:Ey; simpl.
      * apply eqb_eq in Ey. subst y. rewrite E. reflexivity.
      * rewrite andb_true_r. reflexivity.
    + rewrite <- app_assoc. simpl. do 2 f_equal.
      symmetry. apply filter_filter_ext.
      intros y. rewrite negb_orb, andb_comm. reflexivity.
Qed.

Lemma fromkeys_first_occurrences l : fromkeys l = first_occurrences l.
Proof.
  unfold fromkeys. rewrite fromkeys_aux_first_occurrences. simpl.
  induction (first_occurrences l) as [|x s IH]; simpl; congruence.
Qed.

Lemma first_occurrences_In x l : In x (first_occurrences l) <-> In x l.
Proof.
  induction l as [|y l IH]; simpl; [tauto|].
  rewrite filter_In, IH.
  destruct (Py.eqb x y) eqn:E.
  - apply eqb_eq in E. subst. simpl. intuition congruence.
  - apply eqb_neq in E. simpl. intuition congruence.
Qed.

Lemma StronglySorted_filter {A} (R : A -> A -> Prop) f l :
  StronglySorted R l -> StronglySorted R (List.filter f l).
Proof.
  induction 1 as [|x l Hs IH Hf]; simpl; [constructor|].
  destruct (f x); [|exact IH].
  constructor; [exact IH|].
  rewrite Forall_forall in *. intros y Hy.
  apply filter_In in Hy. apply Hf. tauto.
Qed.

Lemma StronglySorted_weaken {A} (R R' : A -> A -> Prop) l :
  (forall x y, In x l -> In y l -> R x y -> R' x y) ->
  StronglySorted R l -> StronglySorted R' l.
Proof.
  intros H Hs. induction Hs as [|x l Hs IH Hf]; [constructor|].
  constructor.
  - apply IH. intros a b Ha Hb. apply H; right; assumption.
  - rewrite Forall_forall in *. intros y Hy.
    apply H; [left; reflexivity | right; exact Hy | apply Hf; exact Hy].
Qed.

Lemma StronglySorted_app_inv {A} (R : A -> A -> Prop) l1 l2 :
  StronglySorted R (l1 ++ l2) ->
  StronglySorted R l1
  /\ forall x y, In x l1 -> In y l2 -> R x y.
Proof.
  induction l1 as [|a l1 IH]; simpl; intros H.
  - split; [constructor | intros x y []].
  - inversion H as [|? ? Hs Hf]; subst.
    destruct (IH Hs) as [H1 H2].
    rewrite Forall_forall in Hf.
    split.
    + constructor; [exact H1|].
      rewrite Forall_forall. intros y Hy. apply Hf, in_or_app. auto.
    + intros x y [<- | Hx] Hy; [apply Hf, in_or_app; auto | auto].
Qed.

Lemma StronglySorted_irrefl_NoDup {A} (R : A -> A -> Prop) l :
  (forall x, ~ R x x) -> StronglySorted R l -> NoDup l.
Proof.
  intros Hirr. induction 1 as [|x l Hs IH Hf]; constructor; [|exact IH].
  intros Hx. rewrite Forall_forall in Hf. exact (Hirr x (Hf x Hx)).
Qed.

(** The first occurrences are listed in the order in which they are
    seen. *)
Lemma first_occurrences_sorted l :
  StronglySorted (first_seen_before l) (first_occurrences l).
Proof.
  induction l as [|a l IH]; simpl; [constructor|].
  constructor.
  - apply StronglySorted_weaken with (R := first_seen_before l).
    + intros x y Hx Hy. apply filter_In in Hx as [_ Hx], Hy as [_ Hy].
      unfold first_seen_before. simpl.
      apply negb_true_iff in Hx, Hy. rewrite Hx, Hy. lia.
    + apply StronglySorted_filter. exact IH.
  - rewrite Forall_forall. intros y Hy. apply filter_In in Hy as [_ Hy].
    unfold first_seen_before. simpl.
    apply negb_true_iff in Hy. rewrite eqb_refl, Hy. lia.
Qed.

(** C8.  [get_alternatives] returns at most five strings, pairwise
    distinct, all taken from the concatenation of its three source lists
    and listed in the order in which they are first seen there; a string
    of the sources that is left out was first seen after the five that
    are returned. *)
Theorem get_alternatives_first_seen_five
    (self : Engine) (element : UIElement) :
  List.length (get_alternatives self element) <= 5
  /\ NoDup (get_alternatives self element)
  /\ (forall x, In x (get_alternatives self element) ->
                In x (alternative_sources self element))
  /\ StronglySorted (first_seen_before (alternative_sources self element))
                    (get_alternatives self element)
  /\ (forall x, In x (alternative_sources self element) ->
                ~ In x (get_alternatives self element) ->
                List.length (get_alternatives self element) = 5
                /\ Forall (fun y =>
                             first_seen_before
                               (alternative_sources self element) y x)
                          (get_alternatives self element)).
Proof.
  unfold get_alternatives.
  rewrite collected_alternatives_sources, fromkeys_first_occurrences.
  set (src := alternative_sources self element).
  pose proof (first_occurrences_sorted src) as Hs.
  rewrite <- (firstn_skipn 5 (first_occurrences src)) in Hs.
  apply StronglySorted_app_inv in Hs as [Hs Hlater].
  split; [apply firstn_le_length|].
  split.
  { apply StronglySorted_irrefl_NoDup with (R := first_seen_before src);
      [intros x; unfold first_seen_before; lia | exact Hs]. }
  split.
  { intros x Hx. apply first_occurrences_In.
    rewrite <- (firstn_skipn 5 (first_occurrences src)).
    apply in_or_app. auto. }
  split; [exact Hs|].
  intros x Hx Hnot.
  apply first_occurrences_In in Hx.
  rewrite <- (firstn_skipn 5 (first_occurrences src)) in Hx.
  apply in_app_or in Hx as [Hx | Hx]; [contradiction|].
  split.
  - rewrite length_firstn. apply Nat.min_l.
    destruct (Nat.le_gt_cases 5 (List.length (first_occurrences src)))
      as [Hle | Hgt]; [exact Hle|].
    rewrite skipn_all2 in Hx by lia. destruct Hx.
  - rewrite Forall_forall. intros y Hy. apply Hlater; assumption.
Qed.

Example get_alternatives_crowded :
  alternative_sources crowded_engine
    (with_app_context #"com.example.app.MainActivity" back_button)
    = [#"뒤로 가기"; #"Back"; #"Button"; #"Back"; #"Image";
       #"Home"; #"Back"; #"Menu"; #"Search"]
  /\ get_alternatives crowded_engine
       (with_app_context #"com.example.app.MainActivity" back_button)
     = [#"뒤로 가기"; #"Back"; #"Button"; #"Image"; #"Home"].
Proof. split; reflexivity. Qed.

(* ================================================================= *)
(** ** Loading the rule tables *)

(** C6, as the specification states it, fails: with the resource-id file
    missing and the class file present, construction succeeds but the
    class table stays empty. *)
Lemma missing_resource_file_empties_class_rules :
  resource_id_rules_json only_class_rules_fs #"comprehensive_rules" = None
  /\ class_name_rules_json only_class_rules_fs #"comprehensive_rules"
     = Some [(#"Button", [#"버튼"])]
  /\ new_engine only_class_rules_fs #"comprehensive_rules"
     = Py.Ok empty_engine
  /\ class_rules empty_engine = [].
Proof. repeat split; reflexivity. Qed.

(** C6, amended.  Construction always succeeds.  [load_rules] reads the
    five files in one [try] block, in the order resource-id, class name,
    text pattern, application, action: a table holds the contents of its
    file when that file and every file read before it can be loaded, and
    is empty otherwise. *)
Theorem load_rules_stops_at_first_missing_file
    (fs : FileSystem) (dir : Py.str) :
  new_engine fs dir
  = Py.Ok
      (mkEngine dir
         (match resource_id_rules_json fs dir with
          | Some r => r
          | None => []
          end)
         (match resource_id_rules_json fs dir,
                class_name_rules_json fs dir with
          | Some _, Some c => c
          | _, _ => []
          end)
         (match resource_id_rules_json fs dir,
                class_name_rules_json fs dir,
                text_pattern_rules_json fs dir with
          | Some _, Some _, Some t => t
          | _, _, _ => []
          end)
         (match resource_id_rules_json fs dir,
                class_name_rules_json fs dir,
                text_pattern_rules_json fs dir,
                app_specific_rules_json fs dir with
          | Some _, Some _, Some _, Some a => a
          | _, _, _, _ => []
          end)
         (match resource_id_rules_json fs dir,
                class_name_rules_json fs dir,
                text_pattern_rules_json fs dir,
                app_specific_rules_json fs dir,
                action_rules_json fs dir with
          | Some _, Some _, Some _, Some _, Some w => w
          | _, _, _, _, _ => []
          end)
         []).
Proof.
  unfold new_engine, load_rules, Loader.try_except, Loader.seq,
    Loader.json_load, Loader.assign, Loader.ret,
    resource_id_rules_json, class_name_rules_json,
    text_pattern_rules_json, app_specific_rules_json, action_rules_json.
  cbn [rules_dir].
  destruct (load_lists fs (dir ++ #"/resource_id_rules.json"));
    [|reflexivity].
  destruct (load_lists fs (dir ++ #"/class_name_rules.json"));
    [|reflexivity].
  destruct (load_lists fs (dir ++ #"/text_pattern_rules.json"));
    [|reflexivity].
  destruct (load_lists fs (dir ++ #"/app_specific_rules.json"));
    [|reflexivity].
  destruct (load_counts fs (dir ++ #"/action_rules.json")); reflexivity.
Qed.

(* ================================================================= *)
(** ** Parent and sibling context *)

(** Induction on a tree with the hypothesis for every child. *)
Lemma Element_forall_ind (P : Element -> Prop) :
  (forall t a cs, Forall P cs -> P (Node t a cs)) ->
  forall e, P e.
Proof.
  intros H.
  fix IH 1.
  intros [t a cs]. apply H.
  induction cs as [|c cs IHcs]; constructor; [apply IH | exact IHcs].
Qed.

Lemma traverse_unfold me element parent :
  traverse me element parent
  = match parent with
    | Some p => [(me, p)]
    | None => []
    end ++ traverse_children me element 0 (children element).
Proof.
  destruct element as [t a cs]. simpl. f_equal.
  generalize (Node t a cs) as e. generalize 0.
  induction cs as [|c cs IH]; intros i e; simpl; [reflexivity|].
  f_equal. apply IH.
Qed.

Lemma path_eqb_neq (p q : path) : p <> q -> path_eqb p q = false.
Proof.
  unfold path_eqb. destruct (list_eq_dec Nat.eq_dec p q); congruence.
Qed.

Lemma parents_get_app d1 d2 k :
  parents_get (d1 ++ d2) k
  = match parents_get d1 k with
    | Some v => Some v
    | None => parents_get d2 k
    end.
Proof.
  induction d1 as [|[k' v] d1 IH]; simpl; [reflexivity|].
  destruct (path_eqb k k'); [reflexivity | exact IH].
Qed.

Lemma parents_get_absent d k :
  (forall v, ~ In (k, v) d) -> parents_get d k = None.
Proof.
  induction d as [|[k' v'] d IH]; simpl; [reflexivity|].
  intros H. unfold path_eqb.
  destruct (list_eq_dec Nat.eq_dec k k') as [-> | _].
  - exfalso. apply (H v'). left. reflexivity.
  - apply IH. intros v Hv. apply (H v). right. exact Hv.
Qed.

(** Every key that [traverse] enters lies below the node it started
    from: the path of that node is a suffix of the key. *)
Lemma traverse_keys_below e :
  forall me parent k v,
    In (k, v) (traverse me e parent) -> exists r, k = r ++ me.
Proof.
  induction e as [t a cs IH] using Element_forall_ind.
  intros me parent k v. rewrite traverse_unfold.
  intros H. apply in_app_or in H as [H | H].
  - destruct parent; [|destruct H].
    destruct H as [H | []]. inversion H; subst. exists []. reflexivity.
  - simpl in H. revert H. generalize (Node t a cs) as e. generalize 0.
    induction IH as [|c cs Hc _ IHcs]; intros i e H; simpl in H;
      [destruct H|].
    apply in_app_or in H as [H | H].
    + apply Hc in H as [r ->]. exists (r ++ [i]).
      rewrite <- app_assoc. reflexivity.
    + apply (IHcs (S i) e). exact H.
Qed.

Lemma suffix_same_length {A} (r1 r2 s1 s2 : list A) :
  r1 ++ s1 = r2 ++ s2 -> List.length s1 = List.length s2 ->
  r1 = r2 /\ s1 = s2.
Proof.
  intros H Hl.
  assert (Hr : List.length r1 = List.length r2).
  { apply (f_equal (@List.length A)) in H.
    rewrite !length_app in H. lia. }
  revert r2 H Hr. induction r1 as [|x r1 IH]; intros [|y r2] H Hr;
    simpl in *; try discriminate; [auto|].
  inversion H; subst.
  destruct (IH r2) as [-> ->]; auto.
Qed.

(** No entry of the subtree of a child is keyed by a path through another
    child. *)
Lemma traverse_other_child e me j j' parent q i :
  j <> j' ->
  parents_get (traverse (j' :: me) e parent) (i :: q ++ j :: me) = None.
Proof.
  intros Hj. apply parents_get_absent. intros v Hv.
  apply traverse_keys_below in Hv as [r Hr].
  change (i :: q ++ j :: me) with ((i :: q) ++ j :: me) in Hr.
  symmetry in Hr. apply suffix_same_length in Hr as [_ Hr]; [|reflexivity].
  inversion Hr. congruence.
Qed.

(** No entry of the subtree of a child is keyed by a sibling of the
    child, except the entry of the child itself. *)
Lemma traverse_children_direct me e k cs i :
  parents_get (traverse_children me e k cs) (i :: me)
  = if (k <=? i) && (i <? k + List.length cs) then Some (me, e) else None.
Proof.
  revert k. induction cs as [|c cs IH]; intros k; simpl.
  - replace (i <? k + 0) with (i <? k) by (f_equal; lia).
    destruct (k <=? i) eqn:E1, (i <? k) eqn:E2; try reflexivity.
    apply Nat.leb_le in E1. apply Nat.ltb_lt in E2. lia.
  - rewrite parents_get_app, traverse_unfold. simpl.
    unfold path_eqb at 1.
    destruct (list_eq_dec Nat.eq_dec (i :: me) (k :: me)) as [E | E].
    + inversion E; subst.
      rewrite Nat.leb_refl.
      replace (k <? k + S (List.length cs)) with true
        by (symmetry; apply Nat.ltb_lt; lia).
      reflexivity.
    + assert (Hik : i <> k) by congruence.
      rewrite parents_get_absent.
      * rewrite IH.
        repeat match goal with
          | |- context [?x <=? ?y] => destruct (Nat.leb_spec x y)
          | |- context [?x <? ?y] => destruct (Nat.ltb_spec x y)
          end; simpl; try reflexivity; lia.
      * intros v Hv.
        pose proof (fun H => traverse_keys_below c (k :: me) None (i :: me) v H)
          as Hb.
        assert (Hin : In (i :: me, v) (traverse (k :: me) c None)).
        { rewrite traverse_unfold. exact Hv. }
        apply Hb in Hin as [r Hr].
        change (i :: me) with ([] ++ i :: me) in Hr.
        apply suffix_same_length in Hr as [_ Hr]; [|reflexivity].
        congruence.
Qed.

Lemma traverse_children_deep me e k cs j q i :
  parents_get (traverse_children me e k cs) (i :: q ++ j :: me)
  = if k <=? j
    then match nth_error cs (j - k) with
         | Some c =>
             parents_get (traverse (j :: me) c (Some (me, e)))
                         (i :: q ++ j :: me)
         | None => None
         end
    else None.
Proof.
  revert k. induction cs as [|c cs IH]; intros k; simpl.
  - destruct (k <=? j); [|reflexivity].
    destruct (j - k); reflexivity.
  - rewrite parents_get_app, IH.
    destruct (Nat.eq_dec j k) as [-> | Hjk].
    + rewrite Nat.leb_refl, Nat.sub_diag.
      replace (S k <=? k) with false by (symmetry; apply Nat.leb_gt; lia).
      cbn [nth_error].
      destruct (parents_get _ _); reflexivity.
    + rewrite traverse_other_child by exact Hjk.
      destruct (Nat.leb_spec (S k) j), (Nat.leb_spec k j);
        try reflexivity; try lia.
      replace (j - k) with (S (j - S k)) by lia. reflexivity.
Qed.

Lemma node_at_snoc e q j :
  node_at e (q ++ [j])
  = match nth_error (children e) j with
    | Some c => node_at c q
    | None => None
    end.
Proof.
  induction q as [|i q IH]; simpl.
  - destruct (nth_error (children e) j); reflexivity.
  - rewrite IH. destruct (nth_error (children e) j); reflexivity.
Qed.

(** What [element_parents] holds for the [i]-th child of the node at
    [q] below [e]: that node. *)
Lemma parents_get_traverse e :
  forall me parent q i,
    parents_get (traverse me e parent) (i :: q ++ me)
    = match node_at e q with
      | Some pe =>
          match nth_error (children pe) i with
          | Some _ => Some (q ++ me, pe)
          | None => None
          end
      | None => None
      end.
Proof.
  induction e as [t a cs IH] using Element_forall_ind.
  intros me parent q i.
  rewrite traverse_unfold, parents_get_app.
  replace (parents_get
             match parent with
             | Some p => [(me, p)]
             | None => []
             end (i :: q ++ me)) with (@None handle).
  2:{ destruct parent; simpl; [|reflexivity].
      rewrite path_eqb_neq; [reflexivity|].
      intros E. apply (f_equal (@List.length nat)) in E.
      simpl in E. rewrite length_app in E. lia. }
  induction q as [|j q' _] using rev_ind.
  - simpl. rewrite traverse_children_direct. simpl.
    destruct (nth_error cs i) eqn:E.
    + replace (i <? List.length cs) with true; [reflexivity|].
      symmetry. apply Nat.ltb_lt. apply nth_error_Some. congruence.
    + replace (i <? List.length cs) with false; [reflexivity|].
      symmetry. apply Nat.ltb_ge. apply nth_error_None. exact E.
  - rewrite node_at_snoc. rewrite <- app_assoc. simpl.
    rewrite traverse_children_deep. simpl. rewrite Nat.sub_0_r.
    destruct (nth_error cs j) as [c|] eqn:E; [|reflexivity].
    rewrite Forall_forall in IH.
    apply (IH c (nth_error_In _ _ E)).
Qed.

(** The root has no entry in [element_parents]. *)
Lemma parents_get_root root :
  parents_get (traverse [] root None) [] = None.
Proof.
  apply parents_get_absent. intros v Hv.
  rewrite traverse_unfold in Hv. simpl in Hv.
  revert Hv. generalize 0.
  induction (children root) as [|c cs IH]; intros k Hv; simpl in Hv;
    [exact Hv|].
  apply in_app_or in Hv as [Hv | Hv].
  - apply traverse_keys_below in Hv as [r Hr].
    destruct r; discriminate.
  - exact (IH (S k) Hv).
Qed.

Lemma sibling_entry_spec (sibling : Element) :
  sibling_entry sibling = spec_context_entry sibling.
Proof.
  unfold sibling_entry, spec_context_entry.
  destruct (get_attr sibling #"android:text" []);
    destruct (_normalize_resource_id (get_attr sibling #"android:id" []));
    reflexivity.
Qed.

Lemma sibling_loop_others p i cs :
  forall k,
    sibling_loop (i :: p) (enumerate_from p k cs)
    = List.map sibling_entry
        (if k <=? i then others (i - k) cs else cs).
Proof.
  induction cs as [|c cs IH]; intros k; simpl.
  - destruct (k <=? i); [|reflexivity].
    unfold others. destruct (i - k); reflexivity.
  - rewrite IH. unfold path_eqb.
    destruct (list_eq_dec Nat.eq_dec (k :: p) (i :: p)) as [E | E];
      cbn [negb].
    + inversion E; subst.
      rewrite Nat.leb_refl, Nat.sub_diag.
      replace (S i <=? i) with false by (symmetry; apply Nat.leb_gt; lia).
      reflexivity.
    + assert (Hki : k <> i) by congruence.
      destruct (Nat.leb_spec (S k) i), (Nat.leb_spec k i);
        try reflexivity; try lia.
      replace (i - k) with (S (i - S k)) by lia. reflexivity.
Qed.

(** [_get_parent_context] writes the class of the parent, a colon and the
    id of the parent, whatever the parent holds. *)
Lemma parent_context_class_and_id
    (self : CompleteAccessibilitySystem) (root : Element) (p : path)
    (i : nat) (parent node : Element) :
  node_at root p = Some parent ->
  nth_error (children parent) i = Some node ->
  _get_parent_context (_build_parent_relationships self root) (i :: p, node)
  = Py.split_last 46%N (tag parent) ++ #":"
      ++ _normalize_resource_id (get_attr parent #"android:id" []).
Proof.
  intros Hp Hn.
  unfold _get_parent_context, _build_parent_relationships.
  cbn [element_parents fst].
  pose proof (parents_get_traverse root [] None p i) as H.
  rewrite app_nil_r, Hp, Hn in H. rewrite H. reflexivity.
Qed.

Example parent_context_without_id :
  _get_parent_context (_build_parent_relationships empty_system login_layout)
                      ([0], login_button) = #"LinearLayout:".
Proof. reflexivity. Qed.

(** C5, as the specification states it, fails for the parent: a parent
    with both an id and a text gives [class:id], where the rule of the
    specification gives [class:text]. *)
Lemma parent_context_ignores_text :
  node_at titled_layout [] = Some titled_layout
  /\ nth_error (children titled_layout) 0 = Some login_button
  /\ _get_parent_context
       (_build_parent_relationships empty_system titled_layout)
       ([0], login_button) = #"LinearLayout:form"
  /\ spec_context_entry titled_layout = #"LinearLayout:Sign in".
Proof. repeat split; reflexivity. Qed.

(** C5, amended.  For the [i]-th child [node] of a node [parent] of the
    tree, [parent_context] is the simple class name of the parent, a
    colon, and the normalised id of the parent when the parent has an id,
    whether or not the parent has a text; [sibling_context] joins with
    spaces, in document order, one entry for every other child of the
    parent, formatted as [class:text] when that child has text, else
    [class:id] when it has an id, else the bare class name.  For the root
    both contexts are empty. *)
Theorem context_formats
    (self : CompleteAccessibilitySystem) (root : Element) (p : path)
    (i : nat) (parent node : Element) :
  node_at root p = Some parent ->
  nth_error (children parent) i = Some node ->
  (_normalize_resource_id (get_attr parent #"android:id" []) <> [] ->
   _get_parent_context (_build_parent_relationships self root)
                       (i :: p, node)
   = Py.split_last 46%N (tag parent) ++ #":"
       ++ _normalize_resource_id (get_attr parent #"android:id" []))
  /\ _get_sibling_context (_build_parent_relationships self root)
                          (i :: p, node)
     = Py.join #" "
         (List.map spec_context_entry (others i (children parent)))
  /\ _get_parent_context (_build_parent_relationships self root) ([], root)
     = []
  /\ _get_sibling_context (_build_parent_relationships self root) ([], root)
     = [].
Proof.
  intros Hp Hn.
  split; [intros _; apply parent_context_class_and_id; assumption|].
  unfold _get_parent_context, _get_sibling_context,
    _build_parent_relationships.
  cbn [element_parents fst].
  rewrite parents_get_root.
  pose proof (parents_get_traverse root [] None p i) as H.
  rewrite app_nil_r, Hp, Hn in H. rewrite H.
  cbn [snd]. repeat split.
  unfold child_handles. cbn [fst snd].
  rewrite sibling_loop_others. cbn [Nat.leb]. rewrite Nat.sub_0_r.
  f_equal. apply map_ext. exact sibling_entry_spec.
Qed.

(** The text view between the button and the image, inside a layout with
    an id and a text. *)
Lemma context_formats_witness :
  _get_parent_context
    (_build_parent_relationships empty_system titled_layout)
    ([1], title_view) = #"LinearLayout:form"
  /\ _get_sibling_context
       (_build_parent_relationships empty_system titled_layout)
       ([1], title_view) = #"Button:login ImageView".
Proof.
  destruct (context_formats empty_system titled_layout [] 1
              titled_layout title_view) as (Hp & Hs & _).
  - reflexivity.
  - reflexivity.
  - split; [rewrite Hp; [reflexivity | vm_compute; discriminate]
           | rewrite Hs; reflexivity].
Defined.

(** The record of a node carries these two contexts. *)
Lemma parse_element_contexts lower self element root ui :
  _parse_element lower self element root = Some ui ->
  parent_context ui = _get_parent_context self element
  /\ sibling_context ui = _get_sibling_context self element.
Proof.
  unfold _parse_element.
  destruct (negb (_is_ui_element (snd element))); [discriminate|].
  intros H. inversion H. split; reflexivity.
Qed.

Example sibling_context_of_button :
  _get_sibling_context (_build_parent_relationships empty_system login_layout)
                       ([0], login_button)
  = #"TextView:Welcome ImageView".
Proof. reflexivity. Qed.

(* ================================================================= *)
(** ** Malformed markup and the empty report *)

Lemma generate_report_total (results : list AccessibilityResult) :
  exists report, generate_report results = Py.Ok report.
Proof.
  unfold generate_report.
  destruct results as [|r results]; [eexists; reflexivity|].
  cbn [List.length Nat.ltb Nat.leb].
  unfold Py.truediv.
  destruct (Qeq_bool (inject_Z (Z.of_nat (S (List.length results)))) 0)
    eqn:E; [|eexists; reflexivity].
  apply Qeq_bool_eq in E. unfold Qeq in E. simpl in E. lia.
Qed.

(** C7, as the specification states it, fails: markup with a lone
    surrogate is rejected before it is parsed, with an exception that is
    not [ParseError], and [analyze_xml_layout] lets it through. *)
Lemma lone_surrogate_escapes :
  encoding_fromstring lone_surrogate_markup
    = Py.Raise Py.UnicodeEncodeError
  /\ analyze_xml_layout Py.ascii_lower encoding_fromstring empty_system
       lone_surrogate_markup
     = (Py.Raise Py.UnicodeEncodeError, empty_system).
Proof. split; reflexivity. Qed.

(** A failure of the parser other than [ParseError] leaves
    [analyze_xml_layout] as it is. *)
Lemma other_parser_errors_propagate
    (lower : Py.str -> Py.str) (fromstring : Py.str -> Py.result Element)
    (self : CompleteAccessibilitySystem) (xml_content : Py.str)
    (e : Py.exn) :
  e <> Py.ParseError ->
  fromstring xml_content = Py.Raise e ->
  analyze_xml_layout lower fromstring self xml_content = (Py.Raise e, self).
Proof.
  intros He H. unfold analyze_xml_layout. rewrite H.
  destruct e; try reflexivity. contradiction He. reflexivity.
Qed.

(** C7, amended.  When the parser rejects the markup with [ParseError],
    [analyze_xml_layout] returns the empty list and raises nothing, and
    the report over that list has [total_elements] 0 and
    [coverage_percentage] 0, computed without a division. *)
Theorem malformed_markup_gives_empty_report
    (lower : Py.str -> Py.str) (fromstring : Py.str -> Py.result Element)
    (self : CompleteAccessibilitySystem) (xml_content : Py.str) :
  fromstring xml_content = Py.Raise Py.ParseError ->
  analyze_xml_layout lower fromstring self xml_content = (Py.Ok [], self)
  /\ exists report,
       generate_report [] = Py.Ok report
       /\ total_elements (summary report) = 0
       /\ coverage_percentage (summary report) = 0%Q.
Proof.
  intros H. unfold analyze_xml_layout. rewrite H.
  split; [reflexivity|].
  eexists. repeat split; reflexivity.
Qed.

Lemma malformed_markup_gives_empty_report_witness :
  toy_fromstring #"<Button" = Py.Raise Py.ParseError
  /\ analyze_xml_layout Py.ascii_lower toy_fromstring empty_system
       #"<Button"
     = (Py.Ok [], empty_system).
Proof.
  split; [reflexivity|].
  apply (malformed_markup_gives_empty_report Py.ascii_lower toy_fromstring
           empty_system #"<Button").
  reflexivity.
Defined.

(* ================================================================= *)
(** ** What the engine returns and raises *)

Lemma return_if_truthy_cases alt rest :
  (exists s, alt = Some s /\ s <> [] /\ return_if_truthy alt rest = Py.Ok s)
  \/ (opt_truthy alt = false /\ return_if_truthy alt rest = rest).
Proof.
  destruct alt as [[|c s]|]; simpl; auto.
  left. exists (c :: s). repeat split. discriminate.
Qed.

Lemma default_alt_text_in_labels lower element :
  In (_get_default_alt_text lower element) default_labels.
Proof.
  unfold _get_default_alt_text, default_labels.
  repeat match goal with
    | |- context [if ?b then _ else _] => destruct b
    end; simpl; tauto.
Qed.

Lemma default_labels_nonempty label : In label default_labels -> label <> [].
Proof.
  unfold default_labels. simpl.
  intros H; repeat destruct H as [<- | H]; try discriminate; destruct H.
Qed.

Lemma match_resource_id_index_error lower self resource_id :
  index_error_only (_match_resource_id lower self resource_id).
Proof.
  unfold index_error_only, _match_resource_id, Dict.mem, Dict.get.
  intros e.
  destruct (Dict.find resource_id (resource_rules self)) as [[|c l]|];
    simpl; try congruence.
  destruct (matching_patterns lower (lower resource_id)
              (resource_rules self)) as [|m0 rest]; [congruence|].
  destruct (sort_reverse (m0 :: rest)) as [|[[n k] [|c a]] s];
    simpl; congruence.
Qed.

Lemma class_partial_loop_index_error lower class_lower items :
  index_error_only (class_partial_loop lower class_lower items).
Proof.
  unfold index_error_only.
  induction items as [|[k [|c a]] items IH]; simpl; intros e;
    try congruence;
    destruct (Py.contains (lower k) class_lower); simpl;
    try congruence; apply IH.
Qed.

Lemma match_class_name_index_error lower self class_name :
  index_error_only (_match_class_name lower self class_name).
Proof.
  unfold index_error_only, _match_class_name, Dict.mem, Dict.get.
  intros e.
  destruct (Dict.find class_name (class_rules self)) as [[|c l]|];
    simpl; try congruence.
  destruct (Dict.find (Py.split_last 46%N class_name) (class_rules self))
    as [[|c l]|]; simpl; try congruence.
  apply class_partial_loop_index_error.
Qed.

Lemma alt_text_label_or_index_error
    (lower : Py.str -> Py.str) (self : Engine) (element : UIElement) :
  (exists label,
      generate_alt_text lower self element = Py.Ok label /\ label <> [])
  \/ generate_alt_text lower self element = Py.Raise Py.IndexError.
Proof.
  unfold generate_alt_text.
  destruct (Py.truthy (content_description element)
            && Py.truthy (Py.strip (content_description element))) eqn:Ed.
  { left. eexists. split; [reflexivity|].
    apply andb_true_iff in Ed as [Ed _]. apply truthy_true. exact Ed. }
  unfold generate_from_rules.
  assert (Hstep : forall alt rest,
             ((exists label, rest = Py.Ok label /\ label <> [])
              \/ rest = Py.Raise Py.IndexError) ->
             (exists label,
                 return_if_truthy alt rest = Py.Ok label /\ label <> [])
             \/ return_if_truthy alt rest = Py.Raise Py.IndexError).
  { intros alt rest H.
    destruct (return_if_truthy_cases alt rest) as [(s & _ & Hs & ->) | [_ ->]];
      [left; eauto | exact H]. }
  destruct (if Py.truthy (resource_id element)
            then _match_resource_id lower self (resource_id element)
            else Py.Ok None) as [alt2|e] eqn:E2.
  2:{ right. cbn [Py.bind]. f_equal.
      destruct (Py.truthy (resource_id element)); [|discriminate].
      exact (match_resource_id_index_error _ _ _ _ E2). }
  cbn [Py.bind]. do 2 apply Hstep.
  destruct (if Py.truthy (text element)
            then _match_text_pattern lower self (text element)
            else Py.Ok None) as [alt4|e] eqn:E4.
  2:{ exfalso. destruct (Py.truthy (text element)); [|discriminate].
      destruct (match_text_pattern_total lower self (text element))
        as [r Hr]. congruence. }
  cbn [Py.bind]. apply Hstep.
  destruct (if Py.truthy (class_name element)
            then _match_class_name lower self (class_name element)
            else Py.Ok None) as [alt5|e] eqn:E5.
  2:{ right. cbn [Py.bind]. f_equal.
      destruct (Py.truthy (class_name element)); [|discriminate].
      exact (match_class_name_index_error _ _ _ _ E5). }
  cbn [Py.bind]. apply Hstep.
  destruct (infer_from_context_total lower self element) as [alt6 ->].
  cbn [Py.bind]. apply Hstep.
  left. eexists. split; [reflexivity|].
  apply default_labels_nonempty, default_alt_text_in_labels.
Qed.

(** X1.  [generate_alt_text] either returns a label that is not the empty
    string or raises [IndexError]: it returns no empty label and raises
    nothing else, whatever the tables hold. *)
Theorem generate_alt_text_label_or_index_error
    (lower : Py.str -> Py.str) (self : Engine) (element : UIElement) :
  (exists label,
      generate_alt_text lower self element = Py.Ok label /\ label <> [])
  \/ generate_alt_text lower self element = Py.Raise Py.IndexError.
Proof. apply alt_text_label_or_index_error. Qed.

Lemma traced_label_nonempty lower self element t label :
  generate_alt_text_traced lower self element = Py.Ok (t, label) ->
  label <> [].
Proof.
  intros H.
  pose proof (generate_alt_text_traced_label lower self element) as Hl.
  rewrite H in Hl. simpl in Hl.
  destruct (alt_text_label_or_index_error lower self element)
    as [(l & Hg & Hne) | Hg]; congruence.
Qed.

Lemma matching_confidence_in_tiers
    (lower : Py.str -> Py.str) (self : Engine) (element : UIElement) :
  exists tier score,
    get_matching_confidence lower self element = Py.Ok (tier, score)
    /\ In (tier, score) confidence_tiers
    /\ (0.1 <= score)%Q /\ (score <= 1)%Q.
Proof.
  assert (Hb : forall tier score,
             In (tier, score) confidence_tiers ->
             (0.1 <= score)%Q /\ (score <= 1)%Q).
  { intros tier score H. unfold confidence_tiers in H. simpl in H.
    repeat destruct H as [H | H]; try (inversion H; subst; clear H);
      try (destruct H); split; unfold Qle; simpl; lia. }
  assert (Hin : forall tier score,
             In (tier, score) confidence_tiers ->
             exists t s,
               Py.Ok (tier, score) = Py.Ok (t, s)
               /\ In (t, s) confidence_tiers
               /\ (0.1 <= s)%Q /\ (s <= 1)%Q).
  { intros tier score H. exists tier, score.
    split; [reflexivity|]. split; [exact H | exact (Hb _ _ H)]. }
  assert (H4 : exists t,
             (if Py.truthy (text element)
              then _match_text_pattern lower self (text element)
              else Py.Ok None) = Py.Ok t).
  { destruct (Py.truthy (text element));
      [apply match_text_pattern_total | eauto]. }
  destruct H4 as [t H4].
  destruct (infer_from_context_total lower self element) as [c Hc].
  unfold get_matching_confidence.
  rewrite H4. cbn [Py.bind]. rewrite Hc. cbn [Py.bind].
  repeat first
    [ apply Hin; unfold confidence_tiers; simpl; tauto
    | match goal with
      | |- context [if ?b then _ else _] => destruct b
      end ].
Qed.

(** X2.  [get_matching_confidence] never raises, whatever the tables
    hold: it returns one of the nine pairs of its body, with a score
    between 0.1 and 1. *)
Theorem get_matching_confidence_returns_tier
    (lower : Py.str -> Py.str) (self : Engine) (element : UIElement) :
  exists tier score,
    get_matching_confidence lower self element = Py.Ok (tier, score)
    /\ In (tier, score) confidence_tiers
    /\ (0.1 <= score)%Q /\ (score <= 1)%Q.
Proof. apply matching_confidence_in_tiers. Qed.

(** X3.  For an element without a description whose resource id is a key
    of [resource_rules] with a first candidate that is not the empty
    string, the label is that candidate, returned by the resource-id
    step; the confidence is [resource_id_exact] with score 0.95, and the
    candidate is the first of the alternatives. *)
Theorem exact_resource_rule_label
    (lower : Py.str -> Py.str) (self : Engine) (element : UIElement)
    (c : Py.str) (rest : list Py.str) :
  content_description element = [] ->
  resource_id element <> [] ->
  Dict.find (resource_id element) (resource_rules self) = Some (c :: rest) ->
  c <> [] ->
  generate_alt_text_traced lower self element = Py.Ok (ByResourceId, c)
  /\ generate_alt_text lower self element = Py.Ok c
  /\ get_matching_confidence lower self element
     = Py.Ok (#"resource_id_exact", 0.95%Q)
  /\ exists others, get_alternatives self element = c :: others.
Proof.
  intros Hd Hr Hf Hc.
  apply truthy_true in Hr, Hc.
  assert (Ht : generate_alt_text_traced lower self element
               = Py.Ok (ByResourceId, c)).
  { unfold generate_alt_text_traced. rewrite Hd, Hr. simpl.
    unfold _match_resource_id, Dict.get.
    rewrite (find_mem_true _ _ _ Hf), Hf. simpl. rewrite Hc. reflexivity. }
  split; [exact Ht|].
  split.
  { rewrite <- generate_alt_text_traced_label, Ht. reflexivity. }
  split.
  { unfold get_matching_confidence.
    rewrite Hd, Hr, (find_mem_true _ _ _ Hf). reflexivity. }
  unfold get_alternatives.
  rewrite collected_alternatives_sources, fromkeys_first_occurrences.
  unfold alternative_sources, resource_entry. rewrite Hf.
  destruct (resource_id element); [discriminate|].
  simpl. eauto.
Qed.

(** The back button of the specification's scenario. *)
Lemma exact_resource_rule_label_witness :
  generate_alt_text Py.ascii_lower back_rule_engine back_button
    = Py.Ok #"뒤로 가기"
  /\ get_matching_confidence Py.ascii_lower back_rule_engine back_button
     = Py.Ok (#"resource_id_exact", 0.95%Q)
  /\ get_alternatives back_rule_engine back_button
     = [#"뒤로 가기"; #"Back"].
Proof.
  destruct (exact_resource_rule_label Py.ascii_lower back_rule_engine
              back_button #"뒤로 가기" [#"Back"])
    as (_ & Hl & Hc & _).
  - reflexivity.
  - vm_compute. discriminate.
  - reflexivity.
  - vm_compute. discriminate.
  - split; [exact Hl|]. split; [exact Hc | reflexivity].
Defined.

(* ================================================================= *)
(** ** Where a label comes from *)

Lemma match_resource_id_candidate lower self resource_id label :
  _match_resource_id lower self resource_id = Py.Ok (Some label) ->
  candidate_of (resource_rules self) label.
Proof.
  unfold _match_resource_id, Dict.mem, Dict.get.
  destruct (Dict.find resource_id (resource_rules self)) as [[|c l]|] eqn:E;
    simpl; try discriminate.
  - intros H. inversion H; subst.
    exists resource_id, (label :: l). split; [|left; reflexivity].
    apply find_In. exact E.
  - destruct (matching_patterns lower (lower resource_id)
                (resource_rules self)) as [|m0 rest] eqn:Em;
      [discriminate|].
    destruct (sort_reverse (m0 :: rest)) as [|[[n k] [|c a]] s] eqn:Es;
      simpl; try discriminate.
    intros H. inversion H; subst.
    assert (Hin : In (n, k, label :: a) (m0 :: rest)).
    { apply sort_reverse_In. rewrite Es. left. reflexivity. }
    rewrite <- Em in Hin. apply matching_patterns_In in Hin as (Hin & _).
    exists k, (label :: a). split; [exact Hin | left; reflexivity].
Qed.

Lemma app_context_loop_candidate ctx items label :
  app_context_loop ctx items = Some label -> candidate_of items label.
Proof.
  induction items as [|[k rules] items IH]; simpl; [discriminate|].
  destruct (Py.contains k ctx).
  - destruct rules as [|r rules]; [discriminate|].
    intros H. inversion H; subst.
    exists k, (label :: rules). split; left; reflexivity.
  - intros H. destruct (IH H) as (k' & c & Hin & Hl).
    exists k', c. split; [right; exact Hin | exact Hl].
Qed.

Lemma pattern_loop_In lower hay patterns label :
  pattern_loop lower hay patterns = Some label -> In label patterns.
Proof.
  induction patterns as [|p patterns IH]; simpl; [discriminate|].
  destruct (Py.contains (lower p) hay).
  - intros H. inversion H. left. reflexivity.
  - intros H. right. exact (IH H).
Qed.

Lemma category_loop_candidate lower hay items label :
  category_loop lower hay items = Some label -> candidate_of items label.
Proof.
  induction items as [|[k patterns] items IH]; simpl; [discriminate|].
  destruct (pattern_loop lower hay patterns) as [p|] eqn:E.
  - intros H. inversion H; subst.
    exists k, patterns. split; [left; reflexivity|].
    exact (pattern_loop_In _ _ _ _ E).
  - intros H. destruct (IH H) as (k' & c & Hin & Hl).
    exists k', c. split; [right; exact Hin | exact Hl].
Qed.

Lemma action_category_loop_candidate lower word items label :
  action_category_loop lower word items = Py.Ok (Some label) ->
  candidate_of items label.
Proof.
  induction items as [|[k patterns] items IH]; simpl; [discriminate|].
  destruct (any_pattern_with lower word patterns).
  - destruct patterns as [|p patterns]; simpl; [discriminate|].
    intros H. inversion H; subst.
    exists k, (label :: patterns). split; left; reflexivity.
  - intros H. destruct (IH H) as (k' & c & Hin & Hl).
    exists k', c. split; [right; exact Hin | exact Hl].
Qed.

Lemma text_word_loop_candidate lower self words label :
  text_word_loop lower self words = Py.Ok (Some label) ->
  candidate_of (text_pattern_rules self) label.
Proof.
  induction words as [|w words IH]; simpl; [discriminate|].
  destruct (Dict.mem w (action_rules self)); [|exact IH].
  destruct (action_category_loop lower w (text_pattern_rules self))
    as [[p|]|e] eqn:E; simpl; try discriminate; [|exact IH].
  intros H. inversion H; subst.
  exact (action_category_loop_candidate _ _ _ _ E).
Qed.

Lemma match_text_pattern_candidate lower self text label :
  _match_text_pattern lower self text = Py.Ok (Some label) ->
  candidate_of (text_pattern_rules self) label.
Proof.
  unfold _match_text_pattern.
  destruct (negb (Py.truthy text)); [discriminate|].
  destruct (category_loop lower (lower text) (text_pattern_rules self))
    as [p|] eqn:E.
  - intros H. inversion H; subst. exact (category_loop_candidate _ _ _ _ E).
  - apply text_word_loop_candidate.
Qed.

Lemma context_word_loop_candidate lower self context items label :
  context_word_loop lower self context items = Py.Ok (Some label) ->
  candidate_of (text_pattern_rules self) label.
Proof.
  induction items as [|[w n] items IH]; simpl; [discriminate|].
  destruct (Py.contains w context); [|exact IH].
  destruct (action_category_loop lower w (text_pattern_rules self))
    as [[p|]|e] eqn:E; simpl; try discriminate; [|exact IH].
  intros H. inversion H; subst.
  exact (action_category_loop_candidate _ _ _ _ E).
Qed.

Lemma infer_from_context_candidate lower self element label :
  _infer_from_context lower self element = Py.Ok (Some label) ->
  candidate_of (text_pattern_rules self) label.
Proof.
  unfold _infer_from_context.
  destruct (category_loop lower _ (text_pattern_rules self)) as [p|] eqn:E.
  - intros H. inversion H; subst. exact (category_loop_candidate _ _ _ _ E).
  - apply context_word_loop_candidate.
Qed.

Lemma class_partial_loop_candidate lower class_lower items label :
  class_partial_loop lower class_lower items = Py.Ok (Some label) ->
  candidate_of items label.
Proof.
  induction items as [|[k a] items IH]; simpl; [discriminate|].
  destruct (Py.contains (lower k) class_lower).
  - destruct a as [|c a]; simpl; [discriminate|].
    intros H. inversion H; subst.
    exists k, (label :: a). split; left; reflexivity.
  - intros H. destruct (IH H) as (k' & c & Hin & Hl).
    exists k', c. split; [right; exact Hin | exact Hl].
Qed.

Lemma match_class_name_candidate lower self class_name label :
  _match_class_name lower self class_name = Py.Ok (Some label) ->
  candidate_of (class_rules self) label.
Proof.
  unfold _match_class_name, Dict.mem, Dict.get.
  destruct (Dict.find class_name (class_rules self)) as [[|c l]|] eqn:E;
    simpl; try discriminate.
  - intros H. inversion H; subst.
    exists class_name, (label :: l). split; [|left; reflexivity].
    apply find_In. exact E.
  - destruct (Dict.find (Py.split_last 46%N class_name) (class_rules self))
      as [[|c l]|] eqn:E'; simpl; try discriminate.
    + intros H. inversion H; subst.
      exists (Py.split_last 46%N class_name), (label :: l).
      split; [|left; reflexivity]. apply find_In. exact E'.
    + apply class_partial_loop_candidate.
Qed.

Lemma tagged_return_cases tier alt rest t label :
  tagged_return tier alt rest = Py.Ok (t, label) ->
  (alt = Some label /\ t = tier /\ label <> [])
  \/ (opt_truthy alt = false /\ rest = Py.Ok (t, label)).
Proof.
  destruct alt as [[|c s]|]; simpl; auto.
  intros H. inversion H; subst. left. repeat split. discriminate.
Qed.

(** The steps of [generate_alt_text_traced] below the description, one
    fact for each: what the step computed and that no earlier step
    returned. *)
Lemma traced_steps lower self element t label :
  Py.truthy (content_description element)
    && Py.truthy (Py.strip (content_description element)) = false ->
  generate_alt_text_traced lower self element = Py.Ok (t, label) ->
  exists alt2 alt4,
    (if Py.truthy (resource_id element)
     then _match_resource_id lower self (resource_id element)
     else Py.Ok None) = Py.Ok alt2
    /\ ((t = ByResourceId /\ alt2 = Some label)
        \/ (opt_truthy alt2 = false
            /\ ((t = ByAppContext
                 /\ (if Py.truthy (app_context element)
                     then _match_app_context self element
                     else None) = Some label)
                \/ (opt_truthy (if Py.truthy (app_context element)
                                then _match_app_context self element
                                else None) = false
                    /\ (if Py.truthy (text element)
                        then _match_text_pattern lower self (text element)
                        else Py.Ok None) = Py.Ok alt4
                    /\ ((t = ByTextPattern /\ alt4 = Some label)
                        \/ (opt_truthy alt4 = false
                            /\ exists alt5 alt6,
                                (if Py.truthy (class_name element)
                                 then _match_class_name lower self
                                        (class_name element)
                                 else Py.Ok None) = Py.Ok alt5
                                /\ ((t = ByClassName /\ alt5 = Some label)
                                    \/ (opt_truthy alt5 = false
                                        /\ _infer_from_context lower self
                                             element = Py.Ok alt6
                                        /\ ((t = ByContext
                                             /\ alt6 = Some label)
                                            \/ (opt_truthy alt6 = false
                                                /\ t = ByDefault
                                                /\ label
                                                   = _get_default_alt_text
                                                       lower element)))))))))).
Proof.
  intros Hd. unfold generate_alt_text_traced. rewrite Hd.
  destruct (if Py.truthy (resource_id element)
            then _match_resource_id lower self (resource_id element)
            else Py.Ok None) as [alt2|e]; [|discriminate].
  cbn [Py.bind]. intros H.
  apply tagged_return_cases in H as [(-> & -> & _) | [T2 H]].
  { exists (Some label), None. split; [reflexivity | left; auto]. }
  apply tagged_return_cases in H as [(E3 & -> & _) | [T3 H]].
  { exists alt2, None. split; [reflexivity|]. right. split; [exact T2|].
    left. auto. }
  destruct (if Py.truthy (text element)
            then _match_text_pattern lower self (text element)
            else Py.Ok None) as [alt4|e]; [|discriminate].
  cbn [Py.bind] in H. exists alt2, alt4. split; [reflexivity|].
  right. split; [exact T2|]. right. split; [exact T3|].
  split; [reflexivity|].
  apply tagged_return_cases in H as [(-> & -> & _) | [T4 H]]; [left; auto|].
  right. split; [exact T4|].
  destruct (if Py.truthy (class_name element)
            then _match_class_name lower self (class_name element)
            else Py.Ok None) as [alt5|e]; [|discriminate].
  cbn [Py.bind] in H.
  destruct (_infer_from_context lower self element) as [alt6|e] eqn:E6.
  - exists alt5, alt6. split; [reflexivity|].
    apply tagged_return_cases in H as [(-> & -> & _) | [T5 H]];
      [left; auto|].
    right. split; [exact T5|]. split; [reflexivity|].
    cbn [Py.bind] in H.
    apply tagged_return_cases in H as [(-> & -> & _) | [T6 H]];
      [left; auto|].
    right. split; [exact T6|]. inversion H. auto.
  - exists alt5, None. split; [reflexivity|].
    apply tagged_return_cases in H as [(-> & -> & _) | [T5 H]];
      [left; auto | discriminate].
Qed.

(** X4.  Every label has a source in the element or the tables: the
    description at step 1, a candidate of [resource_rules] at step 2, of
    [app_specific_rules] at step 3, a pattern of [text_pattern_rules] at
    steps 4 and 6, a candidate of [class_rules] at step 5, and the label
    of [_get_default_alt_text] at step 7. *)
Theorem label_provenance
    (lower : Py.str -> Py.str) (self : Engine) (element : UIElement)
    (tier : label_tier) (label : Py.str) :
  generate_alt_text_traced lower self element = Py.Ok (tier, label) ->
  match tier with
  | ByDescription => label = content_description element
  | ByResourceId => candidate_of (resource_rules self) label
  | ByAppContext => candidate_of (app_specific_rules self) label
  | ByTextPattern => candidate_of (text_pattern_rules self) label
  | ByClassName => candidate_of (class_rules self) label
  | ByContext => candidate_of (text_pattern_rules self) label
  | ByDefault => label = _get_default_alt_text lower element
  end.
Proof.
  intros H.
  destruct (Py.truthy (content_description element)
            && Py.truthy (Py.strip (content_description element))) eqn:Ed.
  { unfold generate_alt_text_traced in H. rewrite Ed in H.
    inversion H. reflexivity. }
  destruct (traced_steps lower self element tier label Ed H)
    as (alt2 & alt4 & H2 & Hcases).
  destruct Hcases as [[-> ->] | [_ Hcases]].
  { destruct (Py.truthy (resource_id element)); [|discriminate].
    exact (match_resource_id_candidate _ _ _ _ H2). }
  destruct Hcases as [[-> H3] | (_ & H4 & Hcases)].
  { destruct (Py.truthy (app_context element)); [|discriminate].
    unfold _match_app_context in H3.
    destruct (negb (Py.truthy (app_context element))); [discriminate|].
    exact (app_context_loop_candidate _ _ _ H3). }
  destruct Hcases as [[-> ->] | (_ & alt5 & alt6 & H5 & Hcases)].
  { destruct (Py.truthy (text element)); [|discriminate].
    exact (match_text_pattern_candidate _ _ _ _ H4). }
  destruct Hcases as [[-> ->] | (_ & H6 & Hcases)].
  { destruct (Py.truthy (class_name element)); [|discriminate].
    exact (match_class_name_candidate _ _ _ _ H5). }
  destruct Hcases as [[-> ->] | (_ & -> & ->)].
  - exact (infer_from_context_candidate _ _ _ _ H6).
  - reflexivity.
Qed.

(** The label of the substring class rule is its candidate. *)
Lemma label_provenance_witness :
  candidate_of
    (class_rules (set_class_rules [(#"button", [#"Press"])] empty_engine))
    #"Press".
Proof.
  exact (label_provenance Py.ascii_lower
           (set_class_rules [(#"button", [#"Press"])] empty_engine)
           (element_of [] #"android.widget.ImageButton")
           ByClassName #"Press" eq_refl).
Defined.

(* ================================================================= *)
(** ** How label and confidence agree *)

Lemma any_resource_partial_matching lower self resource_lower :
  any_resource_partial lower self resource_lower = false
  <-> matching_patterns lower resource_lower (resource_rules self) = [].
Proof.
  unfold any_resource_partial, Dict.keys.
  induction (resource_rules self) as [|[k a] items IH]; simpl;
    [tauto|].
  destruct (Py.contains (lower k) resource_lower); simpl;
    [split; discriminate | exact IH].
Qed.

Lemma any_app_key_loop self ctx :
  any_app_key self ctx = false ->
  app_context_loop ctx (app_specific_rules self) = None.
Proof.
  unfold any_app_key, Dict.keys.
  induction (app_specific_rules self) as [|[k a] items IH]; simpl;
    [reflexivity|].
  destruct (Py.contains k ctx); simpl; [discriminate | exact IH].
Qed.

Lemma match_resource_id_no_match lower self resource_id :
  Dict.mem resource_id (resource_rules self) = false ->
  any_resource_partial lower self (lower resource_id) = false ->
  _match_resource_id lower self resource_id = Py.Ok None.
Proof.
  intros Hm Hp. unfold _match_resource_id. rewrite Hm.
  apply any_resource_partial_matching in Hp. rewrite Hp. reflexivity.
Qed.

(** X5.  When [get_matching_confidence] reports the tier [default], the
    label is either the default label of step 7 or the candidate of a
    class rule that step 5 matched: no other step can have returned
    it. *)
Theorem default_confidence_label_tier
    (lower : Py.str -> Py.str) (self : Engine) (element : UIElement)
    (tier : label_tier) (label : Py.str) :
  get_matching_confidence lower self element = Py.Ok (#"default", 0.1%Q) ->
  generate_alt_text_traced lower self element = Py.Ok (tier, label) ->
  tier = ByClassName \/ tier = ByDefault.
Proof.
  intros Hc Ht.
  pose proof (traced_label_nonempty _ _ _ _ _ Ht) as Hne.
  apply truthy_true in Hne.
  unfold get_matching_confidence in Hc.
  destruct (Py.truthy (content_description element)) eqn:Ed;
    [discriminate|].
  destruct (Py.truthy (resource_id element)
            && Dict.mem (resource_id element) (resource_rules self)) eqn:E1;
    [discriminate|].
  destruct (Py.truthy (resource_id element)
            && any_resource_partial lower self
                 (lower (resource_id element))) eqn:E2;
    [discriminate|].
  destruct (Py.truthy (app_context element)
            && any_app_key self (app_context element)) eqn:E3;
    [discriminate|].
  destruct (if Py.truthy (text element)
            then _match_text_pattern lower self (text element)
            else Py.Ok None) as [t4|e] eqn:E4; [|discriminate].
  cbn [Py.bind] in Hc.
  destruct (Py.truthy (text element) && opt_truthy t4) eqn:T4;
    [discriminate|].
  destruct (Py.truthy (class_name element)
            && Dict.mem (class_name element) (class_rules self));
    [discriminate|].
  destruct (Py.truthy (class_name element)
            && Dict.mem (Py.split_last 46%N (class_name element))
                        (class_rules self));
    [discriminate|].
  destruct (_infer_from_context lower self element) as [c|e] eqn:E6;
    [|discriminate].
  cbn [Py.bind] in Hc.
  destruct (opt_truthy c) eqn:T6; [discriminate|].
  assert (Hd : Py.truthy (content_description element)
               && Py.truthy (Py.strip (content_description element))
               = false) by (rewrite Ed; reflexivity).
  destruct (traced_steps lower self element tier label Hd Ht)
    as (alt2 & alt4 & H2 & Hcases).
  destruct Hcases as [[-> ->] | [_ Hcases]].
  { exfalso.
    destruct (Py.truthy (resource_id element)); [|discriminate].
    simpl in E1, E2.
    rewrite (match_resource_id_no_match _ _ _ E1 E2) in H2. discriminate. }
  destruct Hcases as [[-> H3] | (_ & H4 & Hcases)].
  { exfalso.
    destruct (Py.truthy (app_context element)) eqn:Ea; [|discriminate].
    simpl in E3. unfold _match_app_context in H3. rewrite Ea in H3.
    simpl in H3. rewrite (any_app_key_loop _ _ E3) in H3. discriminate. }
  destruct Hcases as [[-> ->] | (_ & alt5 & alt6 & H5 & Hcases)].
  { exfalso.
    destruct (Py.truthy (text element)); [|discriminate].
    rewrite H4 in E4. inversion E4; subst. simpl in T4. congruence. }
  destruct Hcases as [[-> _] | (_ & H6 & Hcases)]; [left; reflexivity|].
  destruct Hcases as [[-> ->] | (_ & -> & _)]; [|right; reflexivity].
  exfalso. rewrite H6 in E6. inversion E6; subst. simpl in T6. congruence.
Qed.

Lemma default_confidence_label_tier_witness :
  get_matching_confidence Py.ascii_lower
    (set_class_rules [(#"button", [#"Press"])] empty_engine)
    (element_of [] #"android.widget.ImageButton")
    = Py.Ok (#"default", 0.1%Q)
  /\ generate_alt_text_traced Py.ascii_lower
       (set_class_rules [(#"button", [#"Press"])] empty_engine)
       (element_of [] #"android.widget.ImageButton")
     = Py.Ok (ByClassName, #"Press")
  /\ (ByClassName = ByClassName \/ ByClassName = ByDefault).
Proof.
  split; [reflexivity|]. split; [reflexivity|].
  exact (default_confidence_label_tier Py.ascii_lower
           (set_class_rules [(#"button", [#"Press"])] empty_engine)
           (element_of [] #"android.widget.ImageButton")
           ByClassName #"Press" eq_refl eq_refl).
Defined.

(** X6.  When the resource-id step returns the label of an element
    without a description, the confidence is [resource_id_exact] with
    score 0.95 if the id is a key of [resource_rules] and
    [resource_id_partial] with score 0.8 if it is not. *)
Theorem resource_label_confidence
    (lower : Py.str -> Py.str) (self : Engine) (element : UIElement)
    (label : Py.str) :
  content_description element = [] ->
  generate_alt_text_traced lower self element = Py.Ok (ByResourceId, label) ->
  get_matching_confidence lower self element
  = Py.Ok (if Dict.mem (resource_id element) (resource_rules self)
           then (#"resource_id_exact", 0.95%Q)
           else (#"resource_id_partial", 0.8%Q)).
Proof.
  intros Hd Ht.
  assert (Hd' : Py.truthy (content_description element)
                && Py.truthy (Py.strip (content_description element))
                = false) by (rewrite Hd; reflexivity).
  destruct (traced_steps lower self element ByResourceId label Hd' Ht)
    as (alt2 & alt4 & H2 & Hcases).
  assert (H2' : (if Py.truthy (resource_id element)
                 then _match_resource_id lower self (resource_id element)
                 else Py.Ok None) = Py.Ok (Some label)).
  { destruct Hcases as [[_ ->] | [_ Hcases]]; [exact H2|].
    exfalso.
    destruct Hcases as [[E _] | (_ & _ & Hcases)]; [discriminate|].
    destruct Hcases as [[E _] | (_ & alt5 & alt6 & _ & Hcases)];
      [discriminate|].
    destruct Hcases as [[E _] | (_ & _ & Hcases)]; [discriminate|].
    destruct Hcases as [[E _] | (_ & E & _)]; discriminate. }
  unfold get_matching_confidence. rewrite Hd. simpl.
  destruct (Py.truthy (resource_id element)); [|discriminate].
  simpl.
  destruct (Dict.mem (resource_id element) (resource_rules self)) eqn:Em;
    [reflexivity|].
  destruct (any_resource_partial lower self (lower (resource_id element)))
    eqn:Ep; [reflexivity|].
  rewrite (match_resource_id_no_match _ _ _ Em Ep) in H2'. discriminate.
Qed.

Lemma resource_label_confidence_witness :
  get_matching_confidence Py.ascii_lower nested_rules_engine
    (element_of #"Back_Btn_1" #"Button")
  = Py.Ok (#"resource_id_partial", 0.8%Q).
Proof.
  exact (resource_label_confidence Py.ascii_lower nested_rules_engine
           (element_of #"Back_Btn_1" #"Button") #"Back" eq_refl eq_refl).
Defined.

(** X18.  A resource rule whose first candidate is the empty string never
    supplies the label: for an element without a description whose id is
    the key of such a rule, the label comes from a later step, while the
    confidence is still [resource_id_exact] with score 0.95 and the empty
    string is the first of the alternatives. *)
Theorem empty_first_candidate_falls_through
    (lower : Py.str -> Py.str) (self : Engine) (element : UIElement)
    (rest : list Py.str) :
  content_description element = [] ->
  resource_id element <> [] ->
  Dict.find (resource_id element) (resource_rules self)
    = Some ([] :: rest) ->
  get_matching_confidence lower self element
    = Py.Ok (#"resource_id_exact", 0.95%Q)
  /\ (exists others, get_alternatives self element = [] :: others)
  /\ forall tier label,
       generate_alt_text_traced lower self element = Py.Ok (tier, label) ->
       tier <> ByDescription /\ tier <> ByResourceId.
Proof.
  intros Hd Hr Hf.
  apply truthy_true in Hr.
  split.
  { unfold get_matching_confidence.
    rewrite Hd, Hr, (find_mem_true _ _ _ Hf). reflexivity. }
  split.
  { unfold get_alternatives.
    rewrite collected_alternatives_sources, fromkeys_first_occurrences.
    unfold alternative_sources, resource_entry. rewrite Hf.
    destruct (resource_id element); [discriminate|].
    simpl. eauto. }
  intros tier label Ht.
  pose proof (traced_label_nonempty _ _ _ _ _ Ht) as Hne.
  assert (Hd' : Py.truthy (content_description element)
                && Py.truthy (Py.strip (content_description element))
                = false) by (rewrite Hd; reflexivity).
  destruct (traced_steps lower self element tier label Hd' Ht)
    as (alt2 & alt4 & H2 & Hcases).
  rewrite Hr in H2. unfold _match_resource_id, Dict.get in H2.
  rewrite (find_mem_true _ _ _ Hf), Hf in H2. simpl in H2.
  inversion H2; subst alt2.
  destruct Hcases as [[_ E] | [_ Hcases]]; [congruence|].
  destruct Hcases as [[-> _] | (_ & _ & Hcases)];
    [split; discriminate|].
  destruct Hcases as [[-> _] | (_ & alt5 & alt6 & _ & Hcases)];
    [split; discriminate|].
  destruct Hcases as [[-> _] | (_ & _ & Hcases)]; [split; discriminate|].
  destruct Hcases as [[-> _] | (_ & -> & _)]; split; discriminate.
Qed.

Lemma empty_first_candidate_falls_through_witness :
  get_matching_confidence Py.ascii_lower blank_candidate_engine back_button
    = Py.Ok (#"resource_id_exact", 0.95%Q)
  /\ generate_alt_text_traced Py.ascii_lower blank_candidate_engine
       back_button = Py.Ok (ByClassName, #"Image button")
  /\ get_alternatives blank_candidate_engine back_button
     = [[]; #"Back"; #"Image button"].
Proof.
  destruct (empty_first_candidate_falls_through Py.ascii_lower
              blank_candidate_engine back_button [#"Back"])
    as (Hc & _ & _).
  - reflexivity.
  - vm_compute. discriminate.
  - reflexivity.
  - split; [exact Hc|]. split; reflexivity.
Defined.

(* ================================================================= *)
(** ** An engine without rules *)

Lemma text_word_loop_no_patterns lower self words :
  text_pattern_rules self = [] ->
  text_word_loop lower self words = Py.Ok None.
Proof.
  intros H. induction words as [|w words IH]; simpl; [reflexivity|].
  rewrite H. simpl. destruct (Dict.mem w (action_rules self)); exact IH.
Qed.

Lemma context_word_loop_no_patterns lower self context items :
  text_pattern_rules self = [] ->
  context_word_loop lower self context items = Py.Ok None.
Proof.
  intros H. induction items as [|[w n] items IH]; simpl; [reflexivity|].
  rewrite H. simpl. destruct (Py.contains w context); exact IH.
Qed.

(** Without list tables every step before the last one finds nothing. *)
Lemma no_rules_defaults lower self element :
  resource_rules self = [] ->
  class_rules self = [] ->
  text_pattern_rules self = [] ->
  app_specific_rules self = [] ->
  content_description element = [] ->
  generate_alt_text lower self element
    = Py.Ok (_get_default_alt_text lower element)
  /\ get_alternatives self element = []
  /\ get_matching_confidence lower self element
     = Py.Ok (#"default", 0.1%Q).
Proof.
  intros Hr Hc Ht Ha Hd.
  assert (H4 : forall text,
             _match_text_pattern lower self text = Py.Ok None).
  { intros text. unfold _match_text_pattern.
    destruct (negb (Py.truthy text)); [reflexivity|].
    rewrite Ht. simpl.
    apply text_word_loop_no_patterns. exact Ht. }
  assert (H6 : _infer_from_context lower self element = Py.Ok None).
  { unfold _infer_from_context. rewrite Ht. simpl.
    apply context_word_loop_no_patterns. exact Ht. }
  split; [|split].
  - unfold generate_alt_text, generate_from_rules, _match_resource_id,
      _match_app_context, _match_class_name, Dict.mem.
    rewrite Hd, Hr, Hc, Ha, H6. simpl.
    destruct (Py.truthy (resource_id element)),
      (Py.truthy (app_context element)); simpl;
      destruct (Py.truthy (text element)); rewrite ?H4; simpl;
      destruct (Py.truthy (class_name element)); reflexivity.
  - unfold get_alternatives, collected_alternatives, Dict.mem.
    rewrite Hr, Hc, Ha. simpl.
    rewrite !andb_false_r.
    destruct (Py.truthy (app_context element)); reflexivity.
  - unfold get_matching_confidence, any_resource_partial, any_app_key,
      Dict.mem.
    rewrite Hd, Hr, Hc, Ha, H6. simpl.
    rewrite !andb_false_r.
    destruct (Py.truthy (text element)); rewrite ?H4; reflexivity.
Qed.

(** X7.  When the resource-id file cannot be loaded, the engine is built
    without any rule, and every element without a description gets the
    label of [_get_default_alt_text], no alternatives and the confidence
    [default] with score 0.1, whatever the other four files hold. *)
Theorem missing_first_file_gives_defaults
    (fs : FileSystem) (dir : Py.str) (lower : Py.str -> Py.str)
    (element : UIElement) :
  resource_id_rules_json fs dir = None ->
  content_description element = [] ->
  exists self,
    new_engine fs dir = Py.Ok self
    /\ generate_alt_text lower self element
       = Py.Ok (_get_default_alt_text lower element)
    /\ get_alternatives self element = []
    /\ get_matching_confidence lower self element
       = Py.Ok (#"default", 0.1%Q).
Proof.
  intros Hf Hd.
  exists (mkEngine dir [] [] [] [] [] []).
  split.
  - unfold new_engine, load_rules, Loader.try_except, Loader.seq,
      Loader.json_load.
    cbn [rules_dir]. unfold resource_id_rules_json in Hf. rewrite Hf.
    reflexivity.
  - apply no_rules_defaults; try reflexivity. exact Hd.
Qed.

(** The class rules on disk do not reach a button. *)
Lemma missing_first_file_gives_defaults_witness :
  exists self,
    new_engine only_class_rules_fs #"comprehensive_rules" = Py.Ok self
    /\ generate_alt_text Py.ascii_lower self (element_of #"ok" #"Button")
       = Py.Ok #"버튼"
    /\ get_alternatives self (element_of #"ok" #"Button") = []
    /\ get_matching_confidence Py.ascii_lower self
         (element_of #"ok" #"Button")
       = Py.Ok (#"default", 0.1%Q).
Proof.
  exact (missing_first_file_gives_defaults only_class_rules_fs
           #"comprehensive_rules" Py.ascii_lower
           (element_of #"ok" #"Button") eq_refl eq_refl).
Defined.

(* ================================================================= *)
(** ** Loading again *)

(** X8.  [load_rules] never raises and never changes [rules_dir] or
    [context_rules].  Called on an engine that already holds tables, it
    replaces the tables of the files it could load before the first
    failure and leaves the others as they were. *)
Theorem load_rules_partial_update (fs : FileSystem) (self : Engine) :
  load_rules fs self
  = (Py.Ok tt,
     mkEngine (rules_dir self)
       (match resource_id_rules_json fs (rules_dir self) with
        | Some r => r
        | None => resource_rules self
        end)
       (match resource_id_rules_json fs (rules_dir self),
              class_name_rules_json fs (rules_dir self) with
        | Some _, Some c => c
        | _, _ => class_rules self
        end)
       (match resource_id_rules_json fs (rules_dir self),
              class_name_rules_json fs (rules_dir self),
              text_pattern_rules_json fs (rules_dir self) with
        | Some _, Some _, Some t => t
        | _, _, _ => text_pattern_rules self
        end)
       (match resource_id_rules_json fs (rules_dir self),
              class_name_rules_json fs (rules_dir self),
              text_pattern_rules_json fs (rules_dir self),
              app_specific_rules_json fs (rules_dir self) with
        | Some _, Some _, Some _, Some a => a
        | _, _, _, _ => app_specific_rules self
        end)
       (match resource_id_rules_json fs (rules_dir self),
              class_name_rules_json fs (rules_dir self),
              text_pattern_rules_json fs (rules_dir self),
              app_specific_rules_json fs (rules_dir self),
              action_rules_json fs (rules_dir self) with
        | Some _, Some _, Some _, Some _, Some w => w
        | _, _, _, _, _ => action_rules self
        end)
       (context_rules self)).
Proof.
  destruct self as [dir rr cr tr ar wr xr].
  unfold load_rules, Loader.try_except, Loader.seq, Loader.json_load,
    Loader.assign, Loader.ret,
    resource_id_rules_json, class_name_rules_json,
    text_pattern_rules_json, app_specific_rules_json, action_rules_json.
  cbn [rules_dir resource_rules class_rules text_pattern_rules
       app_specific_rules action_rules context_rules].
  destruct (load_lists fs (dir ++ #"/resource_id_rules.json"));
    [|reflexivity].
  destruct (load_lists fs (dir ++ #"/class_name_rules.json"));
    [|reflexivity].
  destruct (load_lists fs (dir ++ #"/text_pattern_rules.json"));
    [|reflexivity].
  destruct (load_lists fs (dir ++ #"/app_specific_rules.json"));
    [|reflexivity].
  destruct (load_counts fs (dir ++ #"/action_rules.json")); reflexivity.
Qed.

Example reload_keeps_stale_resource_rules :
  load_rules only_class_rules_fs back_rule_engine
  = (Py.Ok tt, back_rule_engine).
Proof. reflexivity. Qed.

(* ================================================================= *)
(** ** The report *)

Lemma filter_three_way {A} (hi me : A -> bool) (l : list A) :
  Permutation
    (List.filter hi l
     ++ List.filter (fun x => negb (hi x) && me x) l
     ++ List.filter (fun x => negb (hi x) && negb (me x)) l)
    l.
Proof.
  induction l as [|x l IH]; simpl; [constructor|].
  destruct (hi x); simpl.
  - constructor. exact IH.
  - destruct (me x); simpl.
    + apply Permutation_sym, Permutation_cons_app, Permutation_sym.
      exact IH.
    + apply Permutation_sym.
      rewrite app_assoc.
      apply Permutation_cons_app. rewrite <- app_assoc.
      apply Permutation_sym. exact IH.
Qed.

Lemma bucket_three_way (hi me : Py.str -> bool)
    (result : AccessibilityResult) :
  Permutation
    (bucket_of hi result
     ++ bucket_of (fun p => negb (hi p) && me p) result
     ++ bucket_of (fun p => negb (hi p) && negb (me p)) result)
    (all_entries result).
Proof.
  unfold all_entries, bucket_of. rewrite <- !map_app.
  apply Permutation_map.
  replace (List.filter (fun _ => true) (r_suggestions result))
    with (r_suggestions result)
    by (induction (r_suggestions result); simpl; congruence).
  apply (filter_three_way (fun s => hi (s_priority s))
                          (fun s => me (s_priority s))).
Qed.

Lemma flat_map_three_way {A B} (f g h k : A -> list B) (l : list A) :
  (forall x, Permutation (f x ++ g x ++ h x) (k x)) ->
  Permutation
    (List.flat_map f l ++ List.flat_map g l ++ List.flat_map h l)
    (List.flat_map k l).
Proof.
  intros H. induction l as [|x l IH]; simpl; [constructor|].
  rewrite <- (H x), <- IH. rewrite <- !app_assoc.
  apply Permutation_app_head.
  etransitivity; [apply Permutation_app_swap_app|].
  apply Permutation_app_head.
  rewrite (app_assoc (List.flat_map f l)).
  etransitivity; [apply Permutation_app_swap_app|].
  rewrite <- app_assoc. reflexivity.
Qed.

(** X9.  [generate_report] never raises, also on the empty list: the
    division is guarded.  [total_elements] is the number of results, the
    elements with and without a description make the total, the three
    priority buckets together hold the entry of every suggestion of
    every result exactly once, and the three counts are the lengths of
    the buckets. *)
Theorem generate_report_counts (results : list AccessibilityResult) :
  exists report,
    generate_report results = Py.Ok report
    /\ total_elements (summary report) = List.length results
    /\ elements_with_content_description (summary report)
       + elements_without_content_description (summary report)
       = total_elements (summary report)
    /\ Permutation
         (high_priority report ++ medium_priority report
            ++ low_priority report)
         (List.flat_map all_entries results)
    /\ high_priority_count report = List.length (high_priority report)
    /\ medium_priority_count report = List.length (medium_priority report)
    /\ low_priority_count report = List.length (low_priority report).
Proof.
  pose proof (flat_map_three_way _ _ _ all_entries results
                (bucket_three_way (Py.eqb #"high") (Py.eqb #"medium")))
    as Hp.
  assert (Hw : List.length
                 (List.filter
                    (fun r => Py.truthy (r_current_content_description r))
                    results) <= List.length results)
    by apply filter_length_le.
  destruct (generate_report_total results) as [report Hrep].
  exists report. split; [exact Hrep|].
  unfold generate_report in Hrep.
  destruct (if 0 <? List.length results then _ else _) as [c|e];
    [|discriminate].
  cbn [Py.bind] in Hrep. inversion Hrep; subst report; clear Hrep.
  cbn [summary total_elements elements_with_content_description
       elements_without_content_description
       high_priority medium_priority low_priority
       high_priority_count medium_priority_count low_priority_count].
  repeat split; try reflexivity; [lia | exact Hp].
Qed.

(* ================================================================= *)
(** ** The result of one element *)

Lemma accessibility_result_inv lower self element r :
  _generate_accessibility_result lower self element = Py.Ok r ->
  exists alt_text tier score,
    generate_alt_text lower (rule_engine self) element = Py.Ok alt_text
    /\ get_matching_confidence lower (rule_engine self) element
       = Py.Ok (tier, score)
    /\ r = mkResult (resource_id element) (class_name element)
             (text element) (content_description element) alt_text
             (get_alternatives (rule_engine self) element) tier score
             (clickable element) (focusable element) (enabled element)
             (_generate_suggestions element alt_text score)
             (_calculate_priority element score).
Proof.
  unfold _generate_accessibility_result.
  destruct (generate_alt_text lower (rule_engine self) element)
    as [alt_text|e]; [|discriminate].
  cbn [Py.bind].
  destruct (get_matching_confidence lower (rule_engine self) element)
    as [[tier score]|e]; [|discriminate].
  cbn [Py.bind]. intros H. inversion H. eauto 6.
Qed.

Lemma truthy_false_nil (s : Py.str) : Py.truthy s = false -> s = [].
Proof. destruct s; simpl; congruence. Qed.

Ltac each_suggestion :=
  repeat first [apply Forall_nil | apply Forall_cons];
  repeat split; try reflexivity;
  first [left; reflexivity | right; reflexivity].

Lemma described_confidence lower self element :
  Py.truthy (content_description element) = true ->
  get_matching_confidence lower self element
  = Py.Ok (#"content_description", 1.0%Q).
Proof. intros H. unfold get_matching_confidence. rewrite H. reflexivity. Qed.

(** X10.  Every result carries one or two suggestions: two exactly for a
    clickable element without a description.  Each suggestion proposes
    the generated label with the confidence of the result, and its
    priority is [high] or [medium], never [low]. *)
Theorem result_suggestions_shape
    (lower : Py.str -> Py.str) (self : CompleteAccessibilitySystem)
    (element : UIElement) (r : AccessibilityResult) :
  _generate_accessibility_result lower self element = Py.Ok r ->
  1 <= List.length (r_suggestions r) <= 2
  /\ (List.length (r_suggestions r) = 2
      <-> clickable element = true /\ content_description element = [])
  /\ Forall (fun s =>
               s_suggested s = r_generated_alt_text r
               /\ s_confidence s = r_confidence_score r
               /\ (s_priority s = #"high" \/ s_priority s = #"medium"))
            (r_suggestions r).
Proof.
  intros H.
  apply accessibility_result_inv in H
    as (alt_text & tier & score & _ & Hc & ->).
  cbn [r_suggestions r_generated_alt_text r_confidence_score].
  unfold _generate_suggestions.
  destruct (Py.truthy (content_description element)) eqn:Ed.
  - rewrite (described_confidence lower _ element Ed) in Hc.
    inversion Hc; subst.
    apply truthy_true in Ed.
    cbn [negb andb]. rewrite andb_false_r.
    replace (score_gt 1.0 0.7) with true by reflexivity.
    cbn [app List.length].
    split; [lia|]. split.
    + split; [discriminate | intros [_ E]; contradiction].
    + each_suggestion.
  - apply truthy_false_nil in Ed.
    cbn [negb andb]. rewrite andb_true_r.
    destruct (clickable element); cbn [app List.length].
    + split; [lia|]. split; [tauto|]. each_suggestion.
    + split; [lia|]. split.
      * split; [discriminate | intros [E _]; discriminate].
      * each_suggestion.
Qed.

Lemma result_suggestions_shape_witness :
  1 <= List.length
         (_generate_suggestions
            (mkUIElement #"backBtn" #"ImageButton" [] [] [] true false true
                         [] [] [])
            #"뒤로 가기" 0.95%Q) <= 2.
Proof.
  exact (proj1 (result_suggestions_shape Py.ascii_lower
                  (mkSystem back_rule_engine [])
                  (mkUIElement #"backBtn" #"ImageButton" [] [] [] true false
                               true [] [] [])
                  _ eq_refl)).
Defined.

(** X12.  For an element whose description is not empty after trimming,
    the result keeps the description as the generated label with
    confidence 1.0, and its single suggestion is an
    [improvement_suggestion] of priority [medium] that proposes the
    description the element already has; the priority of the result is
    [high] for a clickable element and [medium] otherwise. *)
Theorem described_element_result
    (lower : Py.str -> Py.str) (self : CompleteAccessibilitySystem)
    (element : UIElement) :
  Py.strip (content_description element) <> [] ->
  exists r,
    _generate_accessibility_result lower self element = Py.Ok r
    /\ r_generated_alt_text r = content_description element
    /\ r_confidence_type r = #"content_description"
    /\ r_confidence_score r = 1.0%Q
    /\ r_suggestions r
       = [mkSuggestion #"improvement_suggestion"
            #"더 명확한 접근성 텍스트로 개선할 수 있습니다."
            (content_description element) (content_description element)
            1.0%Q #"medium"]
    /\ r_priority r = (if clickable element then #"high" else #"medium").
Proof.
  intros H.
  assert (Hs : Py.truthy (Py.strip (content_description element)) = true)
    by (apply truthy_true; exact H).
  assert (Hd : Py.truthy (content_description element) = true)
    by (apply truthy_true, strip_nonempty; exact H).
  unfold _generate_accessibility_result, generate_alt_text.
  rewrite Hd, Hs, (described_confidence lower _ element Hd).
  cbn [andb Py.bind]. eexists. split; [reflexivity|].
  cbn [r_generated_alt_text r_confidence_type r_confidence_score
       r_suggestions r_priority].
  repeat split.
  - unfold _generate_suggestions. rewrite Hd.
    cbn [negb andb]. rewrite andb_false_r. reflexivity.
  - unfold _calculate_priority. destruct (clickable element); reflexivity.
Qed.

Lemma described_element_result_witness :
  exists r,
    _generate_accessibility_result Py.ascii_lower empty_system
      (with_description #"Go back" back_button) = Py.Ok r
    /\ r_generated_alt_text r = #"Go back"
    /\ List.map s_suggested (r_suggestions r) = [#"Go back"]
    /\ r_priority r = #"medium".
Proof.
  destruct (described_element_result Py.ascii_lower empty_system
              (with_description #"Go back" back_button))
    as (r & Hr & Hl & _ & _ & Hs & Hp).
  - vm_compute. discriminate.
  - exists r. split; [exact Hr|]. split; [exact Hl|].
    split; [rewrite Hs; reflexivity | exact Hp].
Defined.

(* ================================================================= *)
(** ** The analysis of a layout *)

Lemma for_each_Forall2 {A B} (f : A -> Py.result B) xs ys :
  for_each f xs = Py.Ok ys -> Forall2 (fun x y => f x = Py.Ok y) xs ys.
Proof.
  revert ys. induction xs as [|x xs IH]; simpl; intros ys H.
  - inversion H. constructor.
  - destruct (f x) as [y|e] eqn:E; [|discriminate]. cbn [Py.bind] in H.
    destruct (for_each f xs) as [ys'|e]; [|discriminate].
    cbn [Py.bind] in H. inversion H; subst.
    constructor; [exact E | apply IH; reflexivity].
Qed.

Lemma for_each_In {A B} (f : A -> Py.result B) xs ys y :
  for_each f xs = Py.Ok ys -> In y ys -> exists x, In x xs /\ f x = Py.Ok y.
Proof.
  intros H. apply for_each_Forall2 in H.
  induction H as [|x y' xs ys Hxy _ IH]; intros Hy; [destruct Hy|].
  destruct Hy as [<- | Hy]; [exists x; split; [left; reflexivity | exact Hxy]|].
  destruct (IH Hy) as (x' & Hx' & Hf). exists x'. split; [right|]; assumption.
Qed.

Lemma for_each_total {A B} (f : A -> Py.result B) xs :
  (forall x, In x xs -> exists y, f x = Py.Ok y) ->
  exists ys, for_each f xs = Py.Ok ys.
Proof.
  induction xs as [|x xs IH]; simpl; intros H; [eauto|].
  destruct (H x (or_introl eq_refl)) as [y ->]. cbn [Py.bind].
  destruct IH as [ys ->]; [intros x' Hx'; apply H; right; exact Hx'|].
  cbn [Py.bind]. eauto.
Qed.

Lemma for_each_raises {A B} (f : A -> Py.result B) xs x :
  (forall x' e, f x' = Py.Raise e -> e = Py.IndexError) ->
  In x xs -> f x = Py.Raise Py.IndexError ->
  for_each f xs = Py.Raise Py.IndexError.
Proof.
  intros Hf. induction xs as [|x' xs IH]; simpl; [tauto|].
  intros Hin Hx.
  destruct (f x') as [y|e] eqn:E.
  - cbn [Py.bind]. destruct Hin as [-> | Hin]; [congruence|].
    rewrite (IH Hin Hx). reflexivity.
  - cbn [Py.bind]. rewrite (Hf _ _ E). reflexivity.
Qed.

Lemma analyze_parsed lower fromstring self xml_content root :
  fromstring xml_content = Py.Ok root ->
  analyze_xml_layout lower fromstring self xml_content
  = (match for_each
             (_generate_accessibility_result lower
                (_build_parent_relationships self root))
             (collect_ui_elements lower
                (_build_parent_relationships self root) root
                (iter [] root)) with
     | Py.Raise Py.ParseError => Py.Ok []
     | r => r
     end,
     _build_parent_relationships self root).
Proof.
  intros H. unfold analyze_xml_layout. rewrite H.
  destruct (for_each _ _) as [ys|[]]; reflexivity.
Qed.

Lemma suggestions_high_or_medium element alt_text score :
  Forall (fun s => s_priority s = #"high" \/ s_priority s = #"medium")
         (_generate_suggestions element alt_text score).
Proof.
  unfold _generate_suggestions.
  destruct (Py.truthy (content_description element));
    destruct (score_gt score 0.7); destruct (clickable element);
    cbn [negb andb app];
    repeat first [apply Forall_nil | apply Forall_cons];
    first [left; reflexivity | right; reflexivity].
Qed.

Lemma low_bucket_empty lower self element r :
  _generate_accessibility_result lower self element = Py.Ok r ->
  bucket_of (fun p => negb (Py.eqb #"high" p) && negb (Py.eqb #"medium" p))
            r = [].
Proof.
  intros H.
  apply accessibility_result_inv in H as (a & t & s & _ & _ & ->).
  unfold bucket_of. cbn [r_suggestions].
  pose proof (suggestions_high_or_medium element a s) as Hs.
  induction Hs as [|x l Hx _ IH]; [reflexivity|].
  cbn [List.filter].
  destruct Hx as [-> | ->]; cbn [negb andb]; exact IH.
Qed.

Lemma generate_report_low results report :
  generate_report results = Py.Ok report ->
  low_priority report
  = List.flat_map
      (bucket_of
         (fun p => negb (Py.eqb #"high" p) && negb (Py.eqb #"medium" p)))
      results
  /\ low_priority_count report = List.length (low_priority report).
Proof.
  unfold generate_report.
  destruct (if 0 <? List.length results then _ else _) as [c|e];
    [|discriminate].
  cbn [Py.bind]. intros H. inversion H. split; reflexivity.
Qed.

(** X11.  Whatever the markup and the tables, the report over the results
    of [analyze_xml_layout] has an empty low-priority bucket: no step of
    the analysis produces a suggestion of priority [low]. *)
Theorem analysis_has_no_low_priority_suggestion
    (lower : Py.str -> Py.str) (fromstring : Py.str -> Py.result Element)
    (self : CompleteAccessibilitySystem) (xml_content : Py.str)
    (results : list AccessibilityResult) :
  fst (analyze_xml_layout lower fromstring self xml_content)
    = Py.Ok results ->
  exists report,
    generate_report results = Py.Ok report
    /\ low_priority report = []
    /\ low_priority_count report = 0.
Proof.
  intros H.
  assert (Hall : forall r, In r results ->
                   bucket_of (fun p => negb (Py.eqb #"high" p)
                                       && negb (Py.eqb #"medium" p)) r
                   = []).
  { unfold analyze_xml_layout in H.
    destruct (fromstring xml_content) as [root|[]]; simpl in H;
      try discriminate.
    - destruct (for_each _ _) as [ys|[]] eqn:E; simpl in H;
        try discriminate; inversion H; subst.
      + intros r Hr.
        destruct (for_each_In _ _ _ _ E Hr) as (x & _ & Hx).
        exact (low_bucket_empty _ _ _ _ Hx).
      + intros r [].
    - inversion H. intros r []. }
  destruct (generate_report_total results) as [report Hrep].
  exists report. split; [exact Hrep|].
  destruct (generate_report_low _ _ Hrep) as [Hl Hc].
  assert (He : low_priority report = []).
  { rewrite Hl. clear - Hall.
    induction results as [|r results IH]; [reflexivity|].
    cbn [List.flat_map].
    rewrite (Hall r (or_introl eq_refl)), IH; [reflexivity|].
    intros r' Hr'. apply Hall. right. exact Hr'. }
  split; [exact He|]. rewrite Hc, He. reflexivity.
Qed.

Lemma analysis_has_no_low_priority_suggestion_witness :
  exists results report,
    fst (analyze_xml_layout Py.ascii_lower toy_fromstring empty_system
           #"<Button/>") = Py.Ok results
    /\ List.length results = 1
    /\ generate_report results = Py.Ok report
    /\ low_priority report = [].
Proof.
  destruct (fst (analyze_xml_layout Py.ascii_lower toy_fromstring
                   empty_system #"<Button/>")) as [results|e] eqn:E.
  - destruct (analysis_has_no_low_priority_suggestion Py.ascii_lower
                toy_fromstring empty_system #"<Button/>" results E)
      as (report & Hr & Hl & _).
    exists results, report.
    split; [reflexivity|]. split; [|split; assumption].
    vm_compute in E. inversion E. reflexivity.
  - vm_compute in E. discriminate E.
Defined.

Lemma accessibility_result_total lower self element :
  has_candidates (resource_rules (rule_engine self)) ->
  has_candidates (class_rules (rule_engine self)) ->
  exists r, _generate_accessibility_result lower self element = Py.Ok r.
Proof.
  intros Hr Hc. unfold _generate_accessibility_result.
  destruct (generate_alt_text_total lower (rule_engine self) element Hr Hc)
    as [label ->].
  destruct (matching_confidence_in_tiers lower (rule_engine self) element)
    as (tier & score & -> & _).
  cbn [Py.bind]. eauto.
Qed.

Lemma accessibility_result_index_error lower self element e :
  _generate_accessibility_result lower self element = Py.Raise e ->
  e = Py.IndexError.
Proof.
  unfold _generate_accessibility_result.
  destruct (alt_text_label_or_index_error lower (rule_engine self) element)
    as [(label & -> & _) | ->]; cbn [Py.bind]; [|congruence].
  destruct (matching_confidence_in_tiers lower (rule_engine self) element)
    as (tier & score & -> & _).
  cbn [Py.bind]. discriminate.
Qed.

Lemma collect_ui_elements_classes lower self root elements :
  List.map class_name (collect_ui_elements lower self root elements)
  = List.map tag (List.filter _is_ui_element (List.map snd elements)).
Proof.
  induction elements as [|h elements IH]; simpl; [reflexivity|].
  unfold _parse_element.
  destruct (_is_ui_element (snd h)); simpl; [f_equal|]; exact IH.
Qed.

Lemma results_classes lower self xs ys :
  for_each (_generate_accessibility_result lower self) xs = Py.Ok ys ->
  List.map r_class_name ys = List.map class_name xs.
Proof.
  intros H. apply for_each_Forall2 in H.
  induction H as [|x y xs ys Hxy _ IH]; simpl; [reflexivity|].
  apply accessibility_result_inv in Hxy as (a & t & s & _ & _ & ->).
  simpl. f_equal. exact IH.
Qed.

(** X13.  Once the tree is parsed and the parent map built, the two loops
    of [analyze_xml_layout] raise nothing when every key of the resource
    and class tables has a candidate, and they produce one result for
    each node whose simple class name is a UI class, in document order;
    nodes of other classes give no result.  The [except] clause leaves
    that list as it is. *)
Theorem analysis_loops_list_ui_nodes_in_order
    (lower : Py.str -> Py.str) (self : CompleteAccessibilitySystem)
    (root : Element) :
  has_candidates (resource_rules (rule_engine self)) ->
  has_candidates (class_rules (rule_engine self)) ->
  exists results,
    for_each (_generate_accessibility_result lower self)
             (collect_ui_elements lower self root (iter [] root))
      = Py.Ok results
    /\ except_parse_error (Py.Ok results) = Py.Ok results
    /\ List.map r_class_name results
       = List.map tag
           (List.filter _is_ui_element (List.map snd (iter [] root))).
Proof.
  intros Hr Hc.
  destruct (for_each_total
              (_generate_accessibility_result lower self)
              (collect_ui_elements lower self root (iter [] root)))
    as [results Hres].
  { intros x _. apply accessibility_result_total; assumption. }
  exists results. split; [exact Hres|]. split; [reflexivity|].
  rewrite (results_classes _ _ _ _ Hres).
  apply collect_ui_elements_classes.
Qed.

Lemma analysis_loops_list_ui_nodes_in_order_witness :
  exists results,
    for_each
      (_generate_accessibility_result Py.ascii_lower
         (_build_parent_relationships empty_system login_layout))
      (collect_ui_elements Py.ascii_lower
         (_build_parent_relationships empty_system login_layout)
         login_layout (iter [] login_layout))
      = Py.Ok results
    /\ List.map r_class_name results
       = [#"Button"; #"android.widget.TextView"; #"ImageView"].
Proof.
  destruct (analysis_loops_list_ui_nodes_in_order Py.ascii_lower
              (_build_parent_relationships empty_system login_layout)
              login_layout)
    as (results & Hr & _ & Hc).
  - constructor.
  - constructor.
  - exists results. split; [exact Hr | rewrite Hc; reflexivity].
Defined.

(** X14.  The [except] clause of [analyze_xml_layout] catches
    [ParseError] only.  Once the tree is parsed and the parent map built,
    if [generate_alt_text] raises [IndexError] for one of the UI elements
    of the tree, the loops raise [IndexError], the [except] clause lets it
    through, and no result is returned, not even for the elements before
    it. *)
Theorem analysis_loops_raise_index_error
    (lower : Py.str -> Py.str) (self : CompleteAccessibilitySystem)
    (root : Element) (ui_element : UIElement) :
  In ui_element (collect_ui_elements lower self root (iter [] root)) ->
  generate_alt_text lower (rule_engine self) ui_element
    = Py.Raise Py.IndexError ->
  except_parse_error
    (for_each (_generate_accessibility_result lower self)
              (collect_ui_elements lower self root (iter [] root)))
  = Py.Raise Py.IndexError.
Proof.
  intros Hin Hg.
  rewrite (for_each_raises (_generate_accessibility_result lower self)
             _ ui_element).
  - reflexivity.
  - intros x e. apply accessibility_result_index_error.
  - exact Hin.
  - unfold _generate_accessibility_result. rewrite Hg. reflexivity.
Qed.

(** The tree of [<Button/>] over a class rule without candidates. *)
Lemma analysis_loops_raise_index_error_witness :
  except_parse_error
    (for_each
       (_generate_accessibility_result Py.ascii_lower
          (_build_parent_relationships
             (mkSystem empty_class_rule_engine []) lone_button))
       (collect_ui_elements Py.ascii_lower
          (_build_parent_relationships
             (mkSystem empty_class_rule_engine []) lone_button)
          lone_button (iter [] lone_button)))
  = Py.Raise Py.IndexError.
Proof.
  apply (analysis_loops_raise_index_error Py.ascii_lower
           (_build_parent_relationships
              (mkSystem empty_class_rule_engine []) lone_button)
           lone_button
           (mkUIElement [] #"Button" [] [] [] false false true [] []
              #"com.example.app.MainActivity")).
  - left. reflexivity.
  - reflexivity.
Defined.

(** The whole call agrees with the loops behind the [except] clause. *)
Lemma analyze_parsed_except lower fromstring self xml_content root :
  fromstring xml_content = Py.Ok root ->
  fst (analyze_xml_layout lower fromstring self xml_content)
  = except_parse_error
      (for_each
         (_generate_accessibility_result lower
            (_build_parent_relationships self root))
         (collect_ui_elements lower
            (_build_parent_relationships self root) root (iter [] root))).
Proof.
  intros H. rewrite (analyze_parsed _ _ _ _ _ H). cbn [fst].
  unfold except_parse_error.
  destruct (for_each _ _) as [ys|[]]; reflexivity.
Qed.

(* ================================================================= *)
(** ** The tree walk *)

(** X15.  After [_build_parent_relationships], [element_parents] maps the
    [i]-th child of every node of the tree to that node and has no entry
    for the root or for a position outside the tree, whatever it held
    before; the rule engine is left alone. *)
Theorem element_parents_lookup
    (self : CompleteAccessibilitySystem) (root : Element) (p : path) :
  parents_get (element_parents (_build_parent_relationships self root)) p
  = match p with
    | [] => None
    | i :: q =>
        match node_at root q with
        | Some parent =>
            match nth_error (children parent) i with
            | Some _ => Some (q, parent)
            | None => None
            end
        | None => None
        end
    end
  /\ rule_engine (_build_parent_relationships self root)
     = rule_engine self.
Proof.
  split; [|reflexivity].
  unfold _build_parent_relationships. cbn [element_parents].
  destruct p as [|i q]; [apply parents_get_root|].
  pose proof (parents_get_traverse root [] None q i) as H.
  rewrite app_nil_r in H. exact H.
Qed.

Lemma iter_unfold me element :
  iter me element
  = (me, element) :: iter_children me 0 (children element).
Proof.
  destruct element as [t a cs]. simpl. f_equal.
  generalize 0.
  induction cs as [|c cs IH]; intros i; simpl; [reflexivity|].
  f_equal. apply IH.
Qed.

Lemma iter_children_In me i cs x :
  In x (iter_children me i cs)
  <-> exists j c, nth_error cs j = Some c /\ In x (iter (i + j :: me) c).
Proof.
  revert i. induction cs as [|c cs IH]; intros i; simpl.
  - split; [tauto|]. intros (j & c & H & _). destruct j; discriminate.
  - rewrite in_app_iff, IH. split.
    + intros [H | (j & c' & Hj & H)].
      * exists 0, c. rewrite Nat.add_0_r. auto.
      * exists (S j), c'. rewrite Nat.add_succ_r. auto.
    + intros ([|j] & c' & Hj & H); simpl in Hj.
      * inversion Hj; subst. rewrite Nat.add_0_r in H. auto.
      * right. exists j, c'. rewrite Nat.add_succ_r in H. auto.
Qed.

Lemma iter_In e :
  forall me k e',
    In (k, e') (iter me e)
    <-> exists q, k = q ++ me /\ node_at e q = Some e'.
Proof.
  induction e as [t a cs IH] using Element_forall_ind.
  intros me k e'. rewrite iter_unfold. cbn [children In].
  rewrite iter_children_In. rewrite Forall_forall in IH.
  split.
  - intros [H | (j & c & Hj & H)].
    + inversion H; subst. exists []. auto.
    + apply (IH c (nth_error_In _ _ Hj)) in H as (q & -> & Hq).
      exists (q ++ [j]). rewrite <- app_assoc. split; [reflexivity|].
      rewrite node_at_snoc. cbn [children]. rewrite Hj. exact Hq.
  - intros (q & -> & Hq).
    induction q as [|j q _] using rev_ind.
    + simpl in Hq. inversion Hq. auto.
    + right. rewrite node_at_snoc in Hq. cbn [children] in Hq.
      destruct (nth_error cs j) as [c|] eqn:Hj; [|discriminate].
      exists j, c. split; [exact Hj|].
      apply (IH c (nth_error_In _ _ Hj)).
      exists q. rewrite <- app_assoc. auto.
Qed.

(** X16.  Every element that the loop of [analyze_xml_layout] visits is a
    node of the tree, and its lookup in [element_parents] is absent
    exactly for the root: any other visited element finds its parent, of
    which it is the child at its own index. *)
Theorem visited_elements_find_their_parent
    (self : CompleteAccessibilitySystem) (root : Element) (p : path)
    (e : Element) :
  In (p, e) (iter [] root) ->
  node_at root p = Some e
  /\ match p with
     | [] =>
         e = root
         /\ parents_get
              (element_parents (_build_parent_relationships self root)) p
            = None
     | i :: q =>
         exists parent,
           parents_get
             (element_parents (_build_parent_relationships self root)) p
           = Some (q, parent)
           /\ node_at root q = Some parent
           /\ nth_error (children parent) i = Some e
     end.
Proof.
  intros H. apply iter_In in H as (q & -> & Hq). rewrite app_nil_r.
  split; [exact Hq|].
  unfold _build_parent_relationships. cbn [element_parents].
  destruct q as [|i q].
  - simpl in Hq. inversion Hq. split; [reflexivity | apply parents_get_root].
  - simpl in Hq.
    destruct (node_at root q) as [parent|] eqn:Hp; [|discriminate].
    exists parent.
    pose proof (parents_get_traverse root [] None q i) as H.
    rewrite app_nil_r, Hp, Hq in H. auto.
Qed.

Lemma visited_elements_find_their_parent_witness :
  exists parent,
    parents_get
      (element_parents
         (_build_parent_relationships empty_system login_layout)) [1]
    = Some ([], parent)
    /\ node_at login_layout [] = Some parent
    /\ nth_error (children parent) 1 = Some title_view.
Proof.
  exact (proj2 (visited_elements_find_their_parent empty_system
                  login_layout [1] title_view
                  ltac:(vm_compute; tauto))).
Defined.

(* ================================================================= *)
(** ** The class of a node *)

Lemma last_cons_nonempty {A} (x : A) (l : list A) (d : A) :
  l <> [] -> List.last (x :: l) d = List.last l d.
Proof. destruct l; [congruence | reflexivity]. Qed.

Lemma split_on_aux_prefix sep p s :
  forall cur,
    List.last (Py.split_on_aux sep cur (p ++ sep :: s)) []
    = List.last (Py.split_on_aux sep [] s) [].
Proof.
  induction p as [|c p IH]; intros cur; cbn [app Py.split_on_aux].
  - rewrite N.eqb_refl.
    apply last_cons_nonempty, split_on_aux_nonempty.
  - destruct (N.eqb c sep); [|apply IH].
    rewrite last_cons_nonempty by apply split_on_aux_nonempty.
    apply IH.
Qed.

Lemma split_on_aux_no_sep sep s :
  ~ In sep s ->
  forall cur, Py.split_on_aux sep cur s = [rev cur ++ s].
Proof.
  induction s as [|c s IH]; intros Hs cur; simpl.
  - rewrite app_nil_r. reflexivity.
  - destruct (N.eqb c sep) eqn:E.
    + apply N.eqb_eq in E. subst. exfalso. apply Hs. left. reflexivity.
    + rewrite IH by (intros H; apply Hs; right; exact H).
      simpl. rewrite <- app_assoc. reflexivity.
Qed.

(** X17.  Whether a node is a UI element depends on the part of its tag
    after the last dot only: a tag [package.Class] whose class part holds
    no dot qualifies exactly when [Class] is one of the eighteen UI
    classes, whatever the package, the attributes and the children. *)
Theorem is_ui_element_ignores_package
    (package class : Py.str) (a : Dict.t Py.str) (cs : list Element) :
  ~ In 46%N class ->
  _is_ui_element (Node (package ++ #"." ++ class) a cs)
  = existsb (Py.eqb class) ui_classes
  /\ _is_ui_element (Node class a cs) = existsb (Py.eqb class) ui_classes.
Proof.
  intros H.
  assert (Hc : Py.split_last 46%N class = class).
  { unfold Py.split_last, Py.split_on.
    rewrite (split_on_aux_no_sep 46%N class H []). reflexivity. }
  unfold _is_ui_element. cbn [tag].
  split; [|rewrite Hc; reflexivity].
  change (package ++ #"." ++ class) with (package ++ 46%N :: class).
  unfold Py.split_last, Py.split_on at 1.
  rewrite split_on_aux_prefix.
  unfold Py.split_last, Py.split_on in Hc. rewrite Hc. reflexivity.
Qed.

Lemma is_ui_element_ignores_package_witness :
  _is_ui_element (Node #"com.google.android.material.Button" [] []) = true
  /\ _is_ui_element (Node #"android.widget.LinearLayout" [] []) = false.
Proof.
  split.
  - apply (proj1 (is_ui_element_ignores_package
                    #"com.google.android.material" #"Button" [] []
                    ltac:(vm_compute; intuition discriminate))).
  - apply (proj1 (is_ui_element_ignores_package
                    #"android.widget" #"LinearLayout" [] []
                    ltac:(vm_compute; intuition discriminate))).
Defined.
